(** * poke-pipeline: the page ingestion script [src/main.py]

    A shallow embedding of [get_api_url], [get_data], [load_data] and
    [main], together with the parts of the Python runtime and of the
    [configparser], [requests], [json], [pathlib] and [logging] modules
    that these four functions go through.

    Conventions of the embedding:
    - a Python [str] is a Rocq [string]; a character stands for the code
      point of the same number, so code points above 255 are not covered;
    - a value decoded from JSON is a term of [json]; Python's [None] is
      [JNull]; a float is carried by its [repr] text;
    - a raised exception is a value of [exn]; a computation that may raise
      returns [exn + A];
    - the directories, the files and the trace of what the program did
      (requests, [mkdir], writes, log records) form the mutable [State];
      what the program cannot control (working directory, configuration
      file, clock, HTTP server, settings of the interpreter) is the
      read-only [Env], the clock and the server being free to answer
      differently as the trace grows;
    - [open(.., 'w')] raises for a name the system cannot hold (a
      character of code 0, a component over 255 bytes, a path of 4096
      bytes or more, the limits of Linux), and [json.dump] raises
      [RecursionError] on a value nested deeper than it has frames for and
      [ValueError] on an integer of more digits than the interpreter
      renders, leaving in the file the chunks written until then; every
      [mkdir] is granted;
    - the [while True] loop of [main] is given twice: as a function
      bounded by a number of passes, and as a relation between a start and
      an outcome.

    A log record of [main] is an event of the trace, whatever handlers
    are installed; [setup_logging] and the [__main__] block come after the
    four functions, with the root logger of [logging] and the lines its
    handlers put out. *)

From Stdlib Require Import ZArith String Ascii List Bool Lia.
From stdpp Require Import base option list strings gmap pretty.

Local Open Scope string_scope.
Local Open Scope Z_scope.

Set Default Proof Using "Type".

(** ** Python exceptions *)

Module Exn.

(** The classes that the modelled operations can raise, each with the
    bases Python gives it.  All of them derive from [Exception]. *)
Inductive class :=
| Exception
| LookupError | KeyError | IndexError
| OSError | FileNotFoundError
| ValueError | JSONDecodeError
| AttributeError | TypeError
| RuntimeError | RecursionError
| ConfigError                          (* configparser.Error *)
| NoSectionError | NoOptionError
| InterpolationError | InterpolationSyntaxError
| InterpolationMissingOptionError | InterpolationDepthError
| ParsingError
| RequestException | HTTPError | ConnectionError | InvalidJSONError.

Global Instance class_eq_dec : EqDecision class.
Proof. solve_decision. Defined.

Definition bases (c : class) : list class :=
  match c with
  | Exception => []
  | LookupError => [Exception]
  | KeyError | IndexError => [LookupError]
  | OSError => [Exception]
  | FileNotFoundError => [OSError]
  | ValueError => [Exception]
  | AttributeError | TypeError => [Exception]
  | RuntimeError => [Exception]
  | RecursionError => [RuntimeError]
  | ConfigError => [Exception]
  | NoSectionError | NoOptionError | InterpolationError | ParsingError =>
      [ConfigError]
  | InterpolationSyntaxError | InterpolationMissingOptionError
  | InterpolationDepthError => [InterpolationError]
  | RequestException => [OSError]
  | HTTPError | ConnectionError | InvalidJSONError => [RequestException]
  | JSONDecodeError => [InvalidJSONError; ValueError]
  end.

(** [issubclass c d], by climbing the bases; the hierarchy is five
    levels deep, so six rounds reach every ancestor. *)
Fixpoint issubclass_upto (n : nat) (c d : class) : bool :=
  bool_decide (c = d) ||
  match n with
  | O => false
  | S n' => existsb (fun b => issubclass_upto n' b d) (bases c)
  end.

Definition issubclass : class -> class -> bool := issubclass_upto 6.

(** A raised exception: its class and the strings it carries.  Where
    the program builds the message itself, [args] is that one message;
    for an exception raised inside a library, [args] holds the data the
    library puts into its message (section, option, offending text). *)
Record t := Raise { cls : class; args : list string }.

Global Instance t_eq_dec : EqDecision t.
Proof. solve_decision. Defined.

(** [isinstance e d], the test an [except d] clause performs. *)
Definition isinstance (e : t) (d : class) : bool := issubclass (cls e) d.

End Exn.

Abbreviation exn := Exn.t.
Abbreviation result A := (sum exn A).

(** ** Values decoded from JSON *)

#[warnings="-register-all"]
Inductive json :=
| JNull
| JBool (b : bool)
| JInt (n : Z)
| JFloat (repr : string)                 (* a float, by its [repr] text *)
| JStr (s : string)
| JList (items : list json)
| JDict (fields : list (string * json)). (* items in insertion order *)

Module Py.

(** Truth value of an object, as [not x] and [if x] test it. *)
Definition truthy (v : json) : bool :=
  match v with
  | JNull => false
  | JBool b => b
  | JInt n => negb (n =? 0)
  | JFloat r => negb (String.eqb r "0.0" || String.eqb r "-0.0")
  | JStr s => negb (String.eqb s "")
  | JList l => match l with [] => false | _ => true end
  | JDict d => match d with [] => false | _ => true end
  end.

Definition type_name (v : json) : string :=
  match v with
  | JNull => "NoneType" | JBool _ => "bool" | JInt _ => "int"
  | JFloat _ => "float" | JStr _ => "str" | JList _ => "list"
  | JDict _ => "dict"
  end.

Definition no_attribute (v : json) (attr : string) : exn :=
  Exn.Raise Exn.AttributeError
    ["'" ++ type_name v ++ "' object has no attribute '" ++ attr ++ "'"].

(** Lookup in the items of a [dict]. *)
Fixpoint assoc (k : string) (d : list (string * json)) : option json :=
  match d with
  | [] => None
  | (k', v) :: d' => if String.eqb k k' then Some v else assoc k d'
  end.

(** [v.get(k)]: only a [dict] has the method; a missing key gives
    [None]. *)
Definition get (v : json) (k : string) : result json :=
  match v with
  | JDict d => inr (match assoc k d with Some x => x | None => JNull end)
  | _ => inl (no_attribute v "get")
  end.

Fixpoint last_char (s : string) : option ascii :=
  match s with
  | EmptyString => None
  | String c EmptyString => Some c
  | String _ r => last_char r
  end.

(** [v[-1]]. *)
Definition index_last (v : json) : result json :=
  match v with
  | JList l =>
      match last l with
      | Some x => inr x
      | None => inl (Exn.Raise Exn.IndexError ["list index out of range"])
      end
  | JStr s =>
      match last_char s with
      | Some c => inr (JStr (String c EmptyString))
      | None => inl (Exn.Raise Exn.IndexError ["string index out of range"])
      end
  | JDict _ => inl (Exn.Raise Exn.KeyError ["-1"])
  | _ => inl (Exn.Raise Exn.TypeError
                ["'" ++ type_name v ++ "' object is not subscriptable"])
  end.

(** [s.split("/")]: the pieces between the separators, always at least
    one. *)
Fixpoint split_slash (s : string) : list string :=
  match s with
  | EmptyString => [EmptyString]
  | String c r =>
      if Ascii.eqb c "/" then EmptyString :: split_slash r
      else match split_slash r with
           | h :: t => String c h :: t
           | [] => [String c EmptyString]
           end
  end.

(** [v.split("/")]: only a [str] has the method. *)
Definition split (v : json) : result (list string) :=
  match v with
  | JStr s => inr (split_slash s)
  | _ => inl (no_attribute v "split")
  end.

(** [l[-2]] on a list of strings: the element at [len(l) - 2], when
    that index is not negative. *)
Definition index_second_last (l : list string) : result string :=
  match (if (2 <=? length l)%nat then l !! (length l - 2)%nat else None) with
  | Some x => inr x
  | None => inl (Exn.Raise Exn.IndexError ["list index out of range"])
  end.

(** [str(n)] of an [int]. *)
Definition str_int (n : Z) : string := pretty n.

(** [int.__repr__] under [sys.get_int_max_str_digits()]: with a limit
    that is not 0, a text of more than 640 characters whose digits are
    more than the limit is not made.  A number has more than [k] digits
    when its absolute value is [10 ^ k] at least. *)
Definition more_digits_than (k : Z) (n : Z) : bool := 10 ^ k <=? Z.abs n.

Definition int_too_long (max_str_digits : nat) (n : Z) : bool :=
  (0 <? max_str_digits)%nat
  && more_digits_than (if n <? 0 then 639 else 640) n
  && more_digits_than (Z.of_nat max_str_digits) n.

Definition int_error (max_str_digits : nat) : exn :=
  Exn.Raise Exn.ValueError
    ["Exceeds the limit (" ++ pretty max_str_digits
       ++ " digits) for integer string conversion; "
       ++ "use sys.set_int_max_str_digits() to increase the limit"].

Definition repr_int (max_str_digits : nat) (n : Z) : result string :=
  if int_too_long max_str_digits n then inl (int_error max_str_digits)
  else inr (str_int n).

End Py.

(** ** [configparser.ConfigParser] *)

Module ConfigParser.

(** What [read] leaves in the parser: the [DEFAULT] options and the
    named sections, option names already lower-cased, values raw. *)
Record t := Parsed {
  defaults : gmap string string;
  sections : gmap string (gmap string string)
}.

Definition empty : t := Parsed ∅ ∅.

Definition MAX_INTERPOLATION_DEPTH : nat := 10.

(** [str.lower] on one character. *)
Definition lower_char (c : ascii) : ascii :=
  let n := nat_of_ascii c in
  if ((65 <=? n) && (n <=? 90))%nat
     || ((192 <=? n) && (n <=? 222) && negb (n =? 215))%nat
  then ascii_of_nat (n + 32) else c.

Fixpoint optionxform (s : string) : string :=
  match s with
  | EmptyString => EmptyString
  | String c r => String (lower_char c) (optionxform r)
  end.

Fixpoint has_percent (s : string) : bool :=
  match s with
  | EmptyString => false
  | String c r => Ascii.eqb c "%" || has_percent r
  end.

(** The characters before the first [")"], and what follows it. *)
Fixpoint until_paren (s : string) : option (string * string) :=
  match s with
  | EmptyString => None
  | String c r =>
      if Ascii.eqb c ")" then Some (EmptyString, r)
      else match until_paren r with
           | Some (name, r') => Some (String c name, r')
           | None => None
           end
  end.

(** The pattern [%\(([^)]+)\)s], matched where ["%("] has just been
    read: the name and the text after the closing [")s"]. *)
Definition key_reference (s : string) : option (string * string) :=
  match until_paren s with
  | Some (String c name, String "s" r') => Some (String c name, r')
  | _ => None
  end.

Section Interpolation.
(** The options visible from the section: its own, then [DEFAULT]. *)
Variable map : string -> option string.
Variables option section rawval : string.

(** The [while rest:] loop of [BasicInterpolation._interpolate_some];
    [deeper] is the recursive call for a referenced value that itself
    holds a ["%"], [n] bounds the passes (each consumes at least one
    character of [rest]). *)
Fixpoint scan (deeper : string -> result string) (n : nat)
    (rest accum : string) {struct n} : result string :=
  match rest, n with
  | EmptyString, _ => inr accum
  | _, O => inr accum
  | String c rest1, S n' =>
      if negb (Ascii.eqb c "%")
      then scan deeper n' rest1 (accum ++ String c EmptyString)
      else match rest1 with
           | String "%" rest2 => scan deeper n' rest2 (accum ++ "%")
           | String "(" rest2 =>
               match key_reference rest2 with
               | None =>
                   inl (Exn.Raise Exn.InterpolationSyntaxError
                          [option; section; rest])
               | Some (name, rest3) =>
                   match map (optionxform name) with
                   | None =>
                       inl (Exn.Raise Exn.InterpolationMissingOptionError
                              [option; section; rawval; optionxform name])
                   | Some v =>
                       if has_percent v
                       then match deeper v with
                            | inl e => inl e
                            | inr s => scan deeper n' rest3 (accum ++ s)
                            end
                       else scan deeper n' rest3 (accum ++ v)
                   end
               end
           | _ => inl (Exn.Raise Exn.InterpolationSyntaxError
                         [option; section; rest])
           end
  end.

(** [_interpolate_some], with [depth] calls still allowed. *)
Fixpoint interpolate_some (depth : nat) (text : string) : result string :=
  match depth with
  | O => inl (Exn.Raise Exn.InterpolationDepthError
                [option; section; rawval])
  | S depth' =>
      scan (interpolate_some depth') (S (String.length text)) text
        EmptyString
  end.
End Interpolation.

(** [BasicInterpolation.before_get]. *)
Definition before_get (map : string -> option string)
    (section option value : string) : result string :=
  interpolate_some map option section value MAX_INTERPOLATION_DEPTH value.

(** [parser.get(section, option, raw=raw)] with no fallback. *)
Definition get (p : t) (section option : string) (raw : bool)
    : result string :=
  match
    match sections p !! section with
    | Some d => inr d
    | None =>
        if String.eqb section "DEFAULT" then inr ∅
        else inl (Exn.Raise Exn.NoSectionError [section])
    end
  with
  | inl e => inl e
  | inr sectiondict =>
      let d k := match sectiondict !! k with
                 | Some v => Some v
                 | None => defaults p !! k
                 end in
      let option := optionxform option in
      match d option with
      | None => inl (Exn.Raise Exn.NoOptionError [option; section])
      | Some value =>
          if raw then inr value else before_get d section option value
      end
  end.

End ConfigParser.

(** ** [json.dump] with its default options *)

Module Json.

Definition quote : string := String "034"%char EmptyString.

Definition hex_digit (n : nat) : ascii :=
  match n with
  | 0 => "0" | 1 => "1" | 2 => "2" | 3 => "3" | 4 => "4" | 5 => "5"
  | 6 => "6" | 7 => "7" | 8 => "8" | 9 => "9" | 10 => "a" | 11 => "b"
  | 12 => "c" | 13 => "d" | 14 => "e" | _ => "f"
  end%nat%char.

(** One character of a string under [ensure_ascii]: the short escapes,
    the printable ASCII characters as they are, [\u00xx] for the rest. *)
Definition escape_char (c : ascii) : string :=
  let n := nat_of_ascii c in
  if (n =? 34)%nat then "\" ++ quote
  else if (n =? 92)%nat then "\\"
  else if (n =? 10)%nat then "\n"
  else if (n =? 13)%nat then "\r"
  else if (n =? 9)%nat then "\t"
  else if (n =? 8)%nat then "\b"
  else if (n =? 12)%nat then "\f"
  else if ((32 <=? n) && (n <=? 126))%nat then String c EmptyString
  else "\u00" ++ String (hex_digit (n / 16)) (String (hex_digit (n mod 16))
                                                EmptyString).

Fixpoint escape (s : string) : string :=
  match s with
  | EmptyString => EmptyString
  | String c r => escape_char c ++ escape r
  end.

Definition encode_str (s : string) : string := quote ++ escape s ++ quote.

Definition encode_float (repr : string) : string :=
  if String.eqb repr "nan" then "NaN"
  else if String.eqb repr "inf" then "Infinity"
  else if String.eqb repr "-inf" then "-Infinity"
  else repr.

(** The chunks joined with [", "]. *)
Fixpoint join (chunks : list string) : string :=
  match chunks with
  | [] => EmptyString
  | [c] => c
  | c :: rest => c ++ ", " ++ join rest
  end.

Fixpoint dumps (v : json) : string :=
  match v with
  | JNull => "null"
  | JBool true => "true"
  | JBool false => "false"
  | JInt n => Py.str_int n
  | JFloat r => encode_float r
  | JStr s => encode_str s
  | JList l => "[" ++ join (List.map dumps l) ++ "]"
  | JDict d =>
      "{" ++ join (List.map (fun kv => encode_str (fst kv) ++ ": "
                                        ++ dumps (snd kv)) d) ++ "}"
  end.

Definition is_container (v : json) : bool :=
  match v with JList _ | JDict _ => true | _ => false end.

(** [json.dump] writes the chunks of [JSONEncoder.iterencode] one by
    one.  The generators [_iterencode_list] and [_iterencode_dict] call
    themselves for a nested list or mapping, and the Python function
    [floatstr] renders a float: each takes a frame of the interpreter, a
    string, an integer, a boolean or [None] takes none.  An integer is
    rendered by [int.__repr__], which refuses one of too many digits.
    With [room] frames left before the recursion limit, [iterencode v room]
    is the text of the chunks that come out, and the exception that has
    stopped them, if any: [RecursionError] or the [ValueError] of
    [int.__repr__]. *)
Definition recursion_error : exn :=
  Exn.Raise Exn.RecursionError ["maximum recursion depth exceeded"].

Section Chunks.
(** The chunks of a nested value, one level down. *)
Variable deeper : json -> string * option exn.

(** The loop of [_iterencode_list] over a list that is not empty: [buf]
    is ["["] before the first item and [", "] before the others; it is
    yielded together with an item that is not a container, and on its own
    ahead of one that is. *)
Fixpoint iterencode_list (buf : string) (l : list json)
    : string * option exn :=
  match l with
  | [] => ("]", None)
  | x :: l' =>
      match deeper x with
      | (text, None) =>
          let '(more, stopped) := iterencode_list ", " l' in
          (buf ++ text ++ more, stopped)
      | (text, Some e) =>
          (if is_container x then buf ++ text else EmptyString, Some e)
      end
  end.

(** The loop of [_iterencode_dict] over a mapping that is not empty,
    after its ["{"]: the separator, the key and the [": "] are yielded on
    their own, ahead of the value. *)
Fixpoint iterencode_dict (sep : string) (d : list (string * json))
    : string * option exn :=
  match d with
  | [] => ("}", None)
  | kv :: d' =>
      match deeper (snd kv) with
      | (text, None) =>
          let '(more, stopped) := iterencode_dict ", " d' in
          (sep ++ encode_str (fst kv) ++ ": " ++ text ++ more, stopped)
      | (text, Some e) =>
          (sep ++ encode_str (fst kv) ++ ": " ++ text, Some e)
      end
  end.
End Chunks.

Section Encoder.
Variable max_str_digits : nat.            (* sys.get_int_max_str_digits() *)

Fixpoint iterencode (v : json) (room : nat) {struct v}
    : string * option exn :=
  match v with
  | JNull => ("null", None)
  | JBool true => ("true", None)
  | JBool false => ("false", None)
  | JInt n =>
      match Py.repr_int max_str_digits n with
      | inr text => (text, None)
      | inl e => (EmptyString, Some e)
      end
  | JStr s => (encode_str s, None)
  | JFloat r =>
      match room with
      | O => (EmptyString, Some recursion_error)
      | S _ => (encode_float r, None)
      end
  | JList l =>
      match room with
      | O => (EmptyString, Some recursion_error)
      | S room' =>
          match l with
          | [] => ("[]", None)
          | _ => iterencode_list (fun x => iterencode x room') "[" l
          end
      end
  | JDict d =>
      match room with
      | O => (EmptyString, Some recursion_error)
      | S room' =>
          match d with
          | [] => ("{}", None)
          | _ =>
              let '(text, stopped) :=
                iterencode_dict (fun x => iterencode x room') EmptyString d in
              ("{" ++ text, stopped)
          end
      end
  end.

(** Whether every integer of a value has few enough digits. *)
Fixpoint ints_fit (v : json) : bool :=
  match v with
  | JInt n => negb (Py.int_too_long max_str_digits n)
  | JList l => forallb ints_fit l
  | JDict d => forallb (fun kv => ints_fit (snd kv)) d
  | _ => true
  end.
End Encoder.

(** The frames [iterencode] needs for a value. *)
Fixpoint frames (v : json) : nat :=
  match v with
  | JFloat _ => 1
  | JList l => S (list_max (List.map frames l))
  | JDict d => S (list_max (List.map (fun kv => frames (snd kv)) d))
  | _ => 0
  end.

End Json.

(** ** The world around the program *)

(** An f-string whose fields are not all strings is kept unrendered. *)
Inductive fragment :=
| Text (s : string)
| StrOf (v : json)                        (* [{v}] *)
| StrOfExn (e : exn).                     (* [{e}] *)

(** What the program does to the outside, in the order it happens. *)
Inductive event :=
| HttpGet (url : json)                    (* requests.get(url) *)
| Mkdir (path : string)                   (* Path.mkdir(parents, exist_ok) *)
| WriteFile (path content : string)       (* open(path, 'w') ... close *)
| LogInfo (message : list fragment)       (* logging.info *)
| LogError (message : list fragment).     (* logging.error *)

(** An HTTP response: its status and its body, already decoded when it is
    JSON text ([None] when it is not). *)
Record response := Response { status_code : Z; body : option json }.

(** The state of [config/api.conf]. *)
Inductive config_file_state :=
| ConfigAbsent                            (* the path does not exist *)
| ConfigUnreadable                        (* exists, cannot be opened *)
| ConfigContent (parse : result ConfigParser.t).

(** A calendar date, and its [strftime("%Y-%m-%d")] text (years of four
    digits at most). *)
Record date := Date { year : nat; month : nat; day : nat }.

Definition zero_pad (width : nat) (n : nat) : string :=
  let digits : string := pretty n in
  String.concat EmptyString
    (replicate (width - String.length digits) "0") ++ digits.

Definition strftime_Ymd (d : date) : string :=
  zero_pad 4 (year d) ++ "-" ++ zero_pad 2 (month d) ++ "-"
    ++ zero_pad 2 (day d).

Record Env := {
  cwd : string;                           (* os.getcwd() *)
  conf : config_file_state;               (* config/api.conf *)
  (** [datetime.now()], given what happened so far *)
  now : list event -> date;
  (** the outcome of [requests.get(url)], given what happened so far *)
  http : list event -> json -> result response;
  (** the frames left to [json.dump] where [load_data] calls it:
      [sys.getrecursionlimit()] less the frames in use *)
  recursion_room : nat;
  (** [sys.get_int_max_str_digits()]: 0 for no limit *)
  int_max_str_digits : nat
}.

(** The filesystem grants every [mkdir], and every [open(.., 'w')] of a
    name it can hold (see [open_error]); what was on the disk before the
    program started, permissions, quotas and interrupts are outside the
    model. *)
Record State := {
  dirs : gset string;
  files : gmap string string;
  trace : list event
}.

Definition emit (ev : event) (st : State) : State :=
  {| dirs := dirs st; files := files st; trace := trace st ++ [ev] |}.

(** Computations that change the state and may raise. *)
Definition M (A : Type) : Type := State -> State * result A.

Definition ret {A} (a : A) : M A := fun st => (st, inr a).
Definition raise {A} (e : exn) : M A := fun st => (st, inl e).
Definition lift {A} (r : result A) : M A := fun st => (st, r).
Definition bind {A B} (m : M A) (k : A -> M B) : M B :=
  fun st => match m st with
            | (st', inr a) => k a st'
            | (st', inl e) => (st', inl e)
            end.

Notation "'let*' x ':=' m 'in' k" := (bind m (fun x => k))
  (at level 10, x name, m at level 100, k at level 200, only parsing).

(** [try: r except c: handler]. *)
Definition try_except {A} (r : result A) (c : Exn.class)
    (handler : exn -> result A) : result A :=
  match r with
  | inl e => if Exn.isinstance e c then handler e else inl e
  | inr a => inr a
  end.

(** [Path(p) / q] on POSIX, for a relative [q]. *)
Definition path_div (p q : string) : string :=
  if String.eqb p "/" then p ++ q else p ++ "/" ++ q.

(** The directories above a path: its prefixes that end before a ["/"]. *)
Fixpoint parents_from (seen rest : string) : list string :=
  match rest with
  | EmptyString => []
  | String c r =>
      (if Ascii.eqb c "/" && negb (String.eqb seen "") then [seen] else [])
        ++ parents_from (seen ++ String c EmptyString) r
  end.

Definition parents (path : string) : list string :=
  parents_from EmptyString path.

(** The limits of Linux on a file name: 255 bytes for each component,
    4096 for the whole path with its terminator. *)
Definition NAME_MAX : nat := 255.
Definition PATH_MAX : nat := 4096.

Fixpoint has_nul (s : string) : bool :=
  match s with
  | EmptyString => false
  | String c r => (nat_of_ascii c =? 0)%nat || has_nul r
  end.

(** The bytes of a string in UTF-8, the encoding of file names: one for
    a code point below 128, two for the others of this model. *)
Fixpoint utf8_length (s : string) : nat :=
  match s with
  | EmptyString => 0
  | String c r =>
      ((if (nat_of_ascii c <? 128)%nat then 1 else 2) + utf8_length r)%nat
  end.

(** The exception of [open(file_path, 'w')], if any: [ValueError] from
    the interpreter for a name that holds the character of code 0, then
    [OSError] ([ENAMETOOLONG]) from the system for a name that is too
    long. *)
Definition open_error (file_path : string) : option exn :=
  if has_nul file_path
  then Some (Exn.Raise Exn.ValueError ["embedded null byte"])
  else if existsb (fun name => (NAME_MAX <? utf8_length name)%nat)
            (Py.split_slash file_path)
          || (PATH_MAX <=? utf8_length file_path)%nat
  then Some (Exn.Raise Exn.OSError ["36"; "File name too long"; file_path])
  else None.

(** ** The program *)

Section Program.

Variable env : Env.

(** [config.read(config_file)]: a file that cannot be opened is skipped
    silently, a file that cannot be parsed raises. *)
Definition config_read : result ConfigParser.t :=
  match conf env with
  | ConfigAbsent | ConfigUnreadable => inr ConfigParser.empty
  | ConfigContent parse => parse
  end.

(** [os.path.exists(config_file)]. *)
Definition config_exists : bool :=
  match conf env with
  | ConfigAbsent => false
  | _ => true
  end.

Definition get_api_url (limit : Z) : result string :=
  let config_file := "config/api.conf" in
  if negb config_exists
  then inl (Exn.Raise Exn.FileNotFoundError
              ["Configuration file '" ++ config_file ++ "' not found."])
  else
    match config_read with
    | inl e => inl e
    | inr config =>
        match
          try_except (ConfigParser.get config "api" "api_url" false)
            Exn.KeyError
            (fun _ => inl (Exn.Raise Exn.KeyError
               ["Missing 'api_url' in the 'api' section of the config file."]))
        with
        | inl e => inl e
        | inr api_url => inr (api_url ++ Py.str_int limit)
        end
    end.

(** [requests.get(api_url)]. *)
Definition requests_get (api_url : json) : M response :=
  fun st => (emit (HttpGet api_url) st, http env (trace st) api_url).

(** [response.json()]. *)
Definition response_json (r : response) : result json :=
  match body r with
  | Some v => inr v
  | None => inl (Exn.Raise Exn.JSONDecodeError [])
  end.

Definition get_data (api_url : json) : M json :=
  let* api_url := match api_url with
             | JNull => lift (match get_api_url 50 with
                              | inl e => inl e
                              | inr s => inr (JStr s)
                              end)
             | _ => ret api_url
             end in
  let* response := requests_get api_url in
  if negb (status_code response =? 200)
  then raise (Exn.Raise Exn.HTTPError
                ["Failed to fetch data. Status code: "
                   ++ Py.str_int (status_code response)])
  else lift (response_json response).

(** [folder_path.mkdir(parents=True, exist_ok=True)]. *)
Definition mkdir_parents (folder_path : string) : M unit :=
  fun st =>
    ({| dirs := dirs st ∪ list_to_set (parents folder_path)
                        ∪ {[folder_path]};
        files := files st;
        trace := trace st ++ [Mkdir folder_path] |}, inr tt).

(** [with open(file_path, 'w') as file: json.dump(obj, file)].  When
    [open] raises, no file is made.  Once it has returned the file exists
    and is empty; [json.dump] writes chunk after chunk, and leaving the
    [with] block closes the file with the chunks written so far, be it at
    the end of the value or at an exception. *)
Definition open_w_json_dump (file_path : string) (obj : json) : M unit :=
  fun st =>
    match open_error file_path with
    | Some e => (st, inl e)
    | None =>
        let '(content, stopped) :=
          Json.iterencode (int_max_str_digits env) obj (recursion_room env) in
        ({| dirs := dirs st;
            files := <[file_path := content]> (files st);
            trace := trace st ++ [WriteFile file_path content] |},
         match stopped with
         | None => inr tt
         | Some e => inl e
         end)
    end.

Definition load_data (data : json) : M unit :=
  fun st =>
    let formated_date := strftime_Ymd (now env (trace st)) in
    let folder_path := path_div (path_div (cwd env) "data") formated_date in
    (let* _ := mkdir_parents folder_path in
     let* results := lift (Py.get data "results") in
     if negb (Py.truthy results)
     then raise (Exn.Raise Exn.ValueError
            ["'results' key is missing or empty in the provided data."])
     else
       let* results' := lift (Py.get data "results") in
       let* last_pokemon := lift (Py.index_last results') in
       let* url := lift (Py.get last_pokemon "url") in
       let* segments := lift (Py.split url) in
       let* last_id := lift (Py.index_second_last segments) in
       let file_path := folder_path ++ "/" ++ last_id ++ ".json" in
       open_w_json_dump file_path results) st.

Definition logging_info (message : list fragment) : M unit :=
  fun st => (emit (LogInfo message) st, inr tt).

Definition logging_error (message : list fragment) : M unit :=
  fun st => (emit (LogError message) st, inr tt).

(** How one pass through the [while True] body ends. *)
Inductive flow := Continue (url : json) | Break.

(** The [try] block of [main]. *)
Definition main_try (url : json) : M flow :=
  let* data := get_data url in
  let* _ := load_data data in
  let* next_url := lift (Py.get data "next") in
  if negb (Py.truthy next_url)
  then let* _ := logging_info
                        [Text "No more pages to fetch. Exiting loop."] in
       ret Break
  else let url := next_url in
       let* _ := logging_info [Text "Fetching next page: "; StrOf url] in
       ret (Continue url).

(** One pass: the [try] block under [except Exception as e]. *)
Definition main_body (url : json) : M flow :=
  fun st =>
    match main_try url st with
    | (st', inl e) =>
        if Exn.isinstance e Exn.Exception
        then (let* _ := logging_error
                          [Text "Error occurred while processing data: ";
                           StrOfExn e] in
              ret Break) st'
        else (st', inl e)
    | (st', inr f) => (st', inr f)
    end.

(** The [while True] loop, for at most [fuel] passes; [None] when the
    passes are used up before the loop ends. *)
Fixpoint main_loop (fuel : nat) (url : json) (st : State)
    : option (State * result unit) :=
  match fuel with
  | O => None
  | S fuel' =>
      match main_body url st with
      | (st', inr (Continue url')) => main_loop fuel' url' st'
      | (st', inr Break) => Some (st', inr tt)
      | (st', inl e) => Some (st', inl e)
      end
  end.

Definition main (fuel : nat) : State -> option (State * result unit) :=
  main_loop fuel JNull.

(** The loop as a relation: [main_run url st r] when, entered with [url]
    in state [st], it ends with [r]. *)
Inductive main_run : json -> State -> State * result unit -> Prop :=
| run_break url st st' :
    main_body url st = (st', inr Break) ->
    main_run url st (st', inr tt)
| run_raise url st st' e :
    main_body url st = (st', inl e) ->
    main_run url st (st', inl e)
| run_continue url st st' url' r :
    main_body url st = (st', inr (Continue url')) ->
    main_run url' st' r ->
    main_run url st r.

(** [reaches url0 st0 url st]: the loop entered with [url0] in [st0]
    comes, after some passes that all continue, to enter a pass with [url]
    in [st]. *)
Inductive reaches : json -> State -> json -> State -> Prop :=
| reaches_here url st : reaches url st url st
| reaches_next url0 st0 url1 st1 url st :
    main_body url0 st0 = (st1, inr (Continue url1)) ->
    reaches url1 st1 url st ->
    reaches url0 st0 url st.

End Program.

(** ** Vocabulary of the properties *)

(** The events a computation added to the trace. *)
Definition new_events (st st' : State) : list event :=
  drop (length (trace st)) (trace st').

Definition is_write (ev : event) : bool :=
  match ev with WriteFile _ _ => true | _ => false end.

Definition is_http_get (ev : event) : bool :=
  match ev with HttpGet _ => true | _ => false end.

(** Whether a file was written between two states. *)
Definition writes_file (st st' : State) : bool :=
  existsb is_write (new_events st st').

(** How many requests were sent between two states. *)
Definition requests_sent (st st' : State) : nat :=
  length (filter (fun ev => is_http_get ev = true) (new_events st st')).

(** The five typed errors of the specification's taxonomy, by the class
    that stands for each in the program: ConfigMissing, ConfigKeyMissing,
    HttpError, ParseError, EmptyResultsError. *)
Definition taxonomy : list Exn.class :=
  [Exn.FileNotFoundError; Exn.KeyError; Exn.HTTPError; Exn.JSONDecodeError;
   Exn.ValueError].

Definition in_taxonomy (e : exn) : bool :=
  existsb (Exn.isinstance e) taxonomy.

(** The number of ["/"] in a string. *)
Fixpoint count_slash (s : string) : nat :=
  match s with
  | EmptyString => 0
  | String c r => ((if Ascii.eqb c "/" then 1 else 0) + count_slash r)%nat
  end.

(** The exception [get_data] raises for a status other than 200. *)
Definition http_error (status : Z) : exn :=
  Exn.Raise Exn.HTTPError
    ["Failed to fetch data. Status code: " ++ Py.str_int status].

(** [requested env api_url url]: [url] is what [get_data env api_url]
    hands to [requests.get], the argument itself or, for [None], the
    first-page URL of the configuration with limit 50. *)
Inductive requested (env : Env) : json -> json -> Prop :=
| requested_given api_url :
    api_url <> JNull -> requested env api_url api_url
| requested_default s :
    get_api_url env 50 = inr s -> requested env JNull (JStr s).

(** A configuration with no [api] section, or with one in which neither
    the section nor [DEFAULT] gives [api_url]. *)
Definition lacks_api_url (p : ConfigParser.t) : Prop :=
  match ConfigParser.sections p !! "api" with
  | None => True
  | Some d => d !! "api_url" = None /\ ConfigParser.defaults p !! "api_url" = None
  end.


(** The two messages [main] logs when a pass ends the loop. *)
Definition error_logged (e : exn) : event :=
  LogError [Text "Error occurred while processing data: "; StrOfExn e].

Definition completion_logged : event :=
  LogInfo [Text "No more pages to fetch. Exiting loop."].

(** [pass_fails env url st st_err e in_fetch]: in the pass entered with
    [url] in state [st], the fetch ([in_fetch = true]) or the persist
    ([in_fetch = false]) raises [e], leaving state [st_err]. *)
Inductive pass_fails (env : Env) (url : json) (st : State)
    : State -> exn -> bool -> Prop :=
| fetch_fails st1 e :
    get_data env url st = (st1, inl e) ->
    pass_fails env url st st1 e true
| persist_fails st1 data st2 e :
    get_data env url st = (st1, inr data) ->
    load_data env data st1 = (st2, inl e) ->
    pass_fails env url st st2 e false.

(** [is_page data results last_id]: [data] is a page response in the
    sense of the data model: a mapping whose [results] is a non-empty list,
    the last item of which is a mapping whose [url] is a string of at
    least two ["/"]-delimited segments, [last_id] being the second from the
    end. *)
Inductive is_page : json -> list json -> string -> Prop :=
| is_page_intro fields items item_fields url last_id :
    Py.assoc "results" fields = Some (JList items) ->
    last items = Some (JDict item_fields) ->
    Py.assoc "url" item_fields = Some (JStr url) ->
    (2 <= length (Py.split_slash url))%nat ->
    Py.split_slash url !! (length (Py.split_slash url) - 2)%nat
      = Some last_id ->
    is_page (JDict fields) items last_id.

(** An item [load_data] cannot name a file after: a mapping with no [url],
    or one whose [url] is a string of fewer than two segments. *)
Inductive malformed_item : json -> Prop :=
| malformed_no_url item_fields :
    Py.assoc "url" item_fields = None ->
    malformed_item (JDict item_fields)
| malformed_short_url item_fields url :
    Py.assoc "url" item_fields = Some (JStr url) ->
    (length (Py.split_slash url) < 2)%nat ->
    malformed_item (JDict item_fields).

(** [is_page], decided. *)
Definition has_id (item : json) : bool :=
  match item with
  | JDict item_fields =>
      match Py.assoc "url" item_fields with
      | Some (JStr url) => bool_decide (2 <= length (Py.split_slash url))%nat
      | _ => false
      end
  | _ => false
  end.

Definition storable (data : json) : bool :=
  match data with
  | JDict fields =>
      match Py.assoc "results" fields with
      | Some (JList items) =>
          match last items with
          | Some item => has_id item
          | None => false
          end
      | _ => false
      end
  | _ => false
  end.

(** What [load_data] computes between creating the directory and opening
    the file: the value it will serialise and the identifier it names the
    file after, or the exception that stops it. *)
Definition page_target (data : json) : result (json * string) :=
  match Py.get data "results" with
  | inl e => inl e
  | inr results =>
      if negb (Py.truthy results)
      then inl (Exn.Raise Exn.ValueError
                  ["'results' key is missing or empty in the provided data."])
      else
        match Py.index_last results with
        | inl e => inl e
        | inr last_pokemon =>
            match Py.get last_pokemon "url" with
            | inl e => inl e
            | inr url =>
                match Py.split url with
                | inl e => inl e
                | inr segments =>
                    match Py.index_second_last segments with
                    | inl e => inl e
                    | inr last_id => inr (results, last_id)
                    end
                end
            end
        end
  end.

(** The dated directory and the file of a page, relative to the working
    directory: [data/<date>] and [data/<date>/<id>.json]. *)
Definition dated_folder (env : Env) (st : State) : string :=
  path_div (cwd env) ("data/" ++ strftime_Ymd (now env (trace st))).

Definition page_file (env : Env) (st : State) (last_id : string) : string :=
  path_div (cwd env)
    ("data/" ++ strftime_Ymd (now env (trace st)) ++ "/" ++ last_id
       ++ ".json").

(** A path [open(.., 'w')] accepts: no character of code 0, no component
    over [NAME_MAX] bytes, fewer than [PATH_MAX] bytes in all. *)
Definition openable (path : string) : bool :=
  negb (has_nul path)
  && forallb (fun name => (utf8_length name <=? NAME_MAX)%nat)
       (Py.split_slash path)
  && (utf8_length path <? PATH_MAX)%nat.

(** A value [json.dump] gets through: it nests no deeper than there are
    frames for, and none of its integers has more digits than the
    interpreter renders. *)
Definition dumpable (env : Env) (v : json) : bool :=
  (Json.frames v <=? recursion_room env)%nat
  && Json.ints_fit (int_max_str_digits env) v.

(** [persistable env st data]: [data] is a page whose file can be opened,
    in state [st], and whose results [json.dump] gets through. *)
Inductive persistable (env : Env) (st : State) (data : json) : Prop :=
| persistable_intro items last_id :
    is_page data items last_id ->
    openable (page_file env st last_id) = true ->
    dumpable env (JList items) = true ->
    persistable env st data.

(** [s] begins [t] and stops short of its end. *)
Definition cut_short (s t : string) : Prop :=
  exists rest, rest <> EmptyString /\ t = s ++ rest.

(** ** Concrete inputs *)

Module Sample.

Definition page7 : json :=
  JDict [("results",
          JList [JDict [("name", JStr "ivysaur");
                        ("url", JStr "https://api.test/items/7/")]]);
         ("next", JStr "https://api.test/items/?page=2")].

Definition page42 : json :=
  JDict [("results",
          JList [JDict [("url", JStr "https://api.test/items/42/")]]);
         ("next", JNull)].


(** One result, with no [url]. *)
Definition page_no_url : json :=
  JDict [("results", JList [JDict [("name", JStr "bulbasaur")]]);
         ("next", JNull)].

(** One result, whose [url] has no ["/"]. *)
Definition page_flat_url : json :=
  JDict [("results", JList [JDict [("url", JStr "seven")]]);
         ("next", JNull)].

(** The last page of a listing that ends on an empty page. *)
Definition page_empty : json :=
  JDict [("results", JList []); ("next", JNull)].

Definition config_with (api_url : string) : ConfigParser.t :=
  ConfigParser.Parsed ∅ {[ "api" := {[ "api_url" := api_url ]} ]}.

(** The first page of a listing whose second page the server fails to
    deliver. *)
Definition page_flaky : json :=
  JDict [("results",
          JList [JDict [("url", JStr "https://api.test/flaky/9/")]]);
         ("next", JStr "https://api.test/flaky/?page=2")].

Definition server (url : json) : result response :=
  match url with
  | JStr "https://api.test/items/?limit=50" =>
      inr (Response 200 (Some page7))
  | JStr "https://api.test/items/?page=2" =>
      inr (Response 200 (Some page42))
  | JStr "https://api.test/items/?page=3" =>
      inr (Response 200 (Some page_empty))
  | JStr "https://api.test/flaky/?limit=50" =>
      inr (Response 200 (Some page_flaky))
  | JStr "https://api.test/flaky/?page=2" => inr (Response 500 None)
  | JStr "https://api.test/created" => inr (Response 201 (Some page7))
  | _ => inr (Response 404 None)
  end.

Definition env_with (c : config_file_state) : Env :=
  {| cwd := "/srv/poke";
     conf := c;
     now := fun _ => Date 2026 11 3;
     http := fun _ => server;
     recursion_room := 990;
     int_max_str_digits := 4300 |}.

Definition env : Env :=
  env_with (ConfigContent (inr (config_with "https://api.test/items/?limit="))).

Definition env_flaky : Env :=
  env_with (ConfigContent (inr (config_with "https://api.test/flaky/?limit="))).


(** A configuration file that exists and is empty. *)
Definition env_no_section : Env :=
  env_with (ConfigContent (inr ConfigParser.empty)).

(** A server that answers every request with the status [code]. *)
Definition env_status (code : Z) : Env :=
  {| cwd := "/srv/poke";
     conf := ConfigAbsent;
     now := fun _ => Date 2026 11 3;
     http := fun _ _ => inr (Response code (Some page7));
     recursion_room := 990;
     int_max_str_digits := 4300 |}.

(** A configuration file with an [api] section and no [api_url]. *)
Definition env_no_option : Env :=
  env_with (ConfigContent (inr (ConfigParser.Parsed ∅ {[ "api" := ∅ ]}))).

Definition fresh : State := {| dirs := ∅; files := ∅; trace := [] |}.


(** A filesystem that already holds something. *)
Definition used : State :=
  {| dirs := {[ "/srv/poke/notes" ]};
     files := {[ "/srv/poke/notes/todo.txt" := "ship it" ]};
     trace := [] |}.


(** A page with a name that is not ASCII, and a line break in it. *)
Definition page_accents : json :=
  JDict [("results",
          JList [JDict [("name", JStr (String "233"%char
                                         (String "010"%char "vee")));
                        ("url", JStr "https://api.test/items/133/")]]);
         ("next", JNull)].


(** A page whose last item has the character of code 0 in its
    identifier. *)
Definition page_nul : json :=
  JDict [("results",
          JList [JDict [("url", JStr ("https://api.test/items/7"
                                        ++ String "000"%char "/"))]]);
         ("next", JNull)].

(** A page whose last item has an identifier of 251 characters. *)
Definition page_long : json :=
  JDict [("results",
          JList [JDict [("url", JStr ("https://api.test/items/"
                                        ++ String.concat EmptyString
                                             (replicate 251 "a")
                                        ++ "/"))]]);
         ("next", JNull)].

(** A page whose first item holds an integer of 5000 digits. *)
Definition page_wide : json :=
  JDict [("results",
          JList [JDict [("id", JInt (10 ^ 4999));
                        ("url", JStr "https://api.test/items/7/")]]);
         ("next", JNull)].

(** A page whose first item holds lists nested 1200 deep. *)
Definition page_deep : json :=
  JDict [("results",
          JList [Nat.iter 1200 (fun v => JList [v]) (JInt 1);
                 JDict [("url", JStr "https://api.test/items/7/")]]);
         ("next", JNull)].

End Sample.

(** ** Logging and the script *)

(** The part of the [logging] module that [setup_logging] and the
    module-level [logging.info] and [logging.error] go through: the root
    logger, its level and its handlers.  A line of output is carried by the
    stream it goes to, the format string of its handler and the record it
    renders; the text itself is not built, since [%(asctime)s] needs a time
    of day the environment does not give. *)
Module Logging.

Definition NOTSET : Z := 0.
Definition INFO : Z := 20.
Definition WARNING : Z := 30.
Definition ERROR : Z := 40.

Inductive stream :=
| Stderr
| File (path : string).

Record handler := Handler {
  h_stream : stream;
  h_level : Z;
  h_format : string
}.

Record logger := Logger { level : Z; handlers : list handler }.

(** The root logger of an interpreter that has configured nothing. *)
Definition root : logger := Logger WARNING [].

Definition BASIC_FORMAT : string := "%(levelname)s:%(name)s:%(message)s".

(** [logging.basicConfig()] with no argument: one handler on the standard
    error when the root logger has none, nothing otherwise. *)
Definition basicConfig (l : logger) : logger :=
  match handlers l with
  | [] => Logger (level l) [Handler Stderr NOTSET BASIC_FORMAT]
  | _ => l
  end.

Record record := LogRecord { levelno : Z; message : list fragment }.

Record line := Line { on : stream; format : string; what : record }.

Definition accepts (r : record) (h : handler) : bool :=
  h_level h <=? levelno r.

(** [Logger.callHandlers]: every handler whose level admits the record;
    with no handler at all, the handler of last resort. *)
Definition callHandlers (l : logger) (r : record) : list line :=
  match handlers l with
  | [] => if WARNING <=? levelno r then [Line Stderr "%(message)s" r] else []
  | hs => List.map (fun h => Line (h_stream h) (h_format h) r)
            (List.filter (accepts r) hs)
  end.

(** The module-level [logging.info] and [logging.error]:
    [basicConfig()] when the root logger has no handler, then the record is
    handled if the level of the root logger admits it. *)
Definition log (lvl : Z) (msg : list fragment) (l : logger)
    : logger * list line :=
  let l' := match handlers l with [] => basicConfig l | _ => l end in
  (l', if level l' <=? lvl then callHandlers l' (LogRecord lvl msg) else []).

(** The lines that the log records of a trace produce, in order. *)
Fixpoint deliver (l : logger) (tr : list event) : logger * list line :=
  match tr with
  | [] => (l, [])
  | ev :: tr' =>
      let '(l1, out1) := match ev with
                         | LogInfo msg => log INFO msg l
                         | LogError msg => log ERROR msg l
                         | _ => (l, [])
                         end in
      let '(l2, out2) := deliver l1 tr' in
      (l2, (out1 ++ out2)%list)
  end.

End Logging.

Section Script.

Variable env : Env.

(** [os.makedirs(name, exist_ok=True)] for a one-component relative
    name. *)
Definition os_makedirs (name : string) (st : State) : State :=
  {| dirs := dirs st ∪ {[path_div (cwd env) name]};
     files := files st;
     trace := trace st ++ [Mkdir (path_div (cwd env) name)] |}.

(** [setup_logging]: the directory, then the root logger at [INFO] with
    two more handlers, console and file, both at [INFO] and with the same
    format.  The log file is followed through the lines sent to its stream,
    not through [files]. *)
Definition setup_logging (st : State) (l : Logging.logger)
    : State * Logging.logger :=
  let log_directory := "logs" in
  let st' := os_makedirs log_directory st in
  let log_file := log_directory ++ "/" ++ "app.log" in
  let formatter := "%(asctime)s - %(levelname)s - %(message)s" in
  let console_handler :=
    Logging.Handler Logging.Stderr Logging.INFO formatter in
  let file_handler :=
    Logging.Handler (Logging.File (path_div (cwd env) log_file))
      Logging.INFO formatter in
  (st', Logging.Logger Logging.INFO
          (Logging.handlers l ++ [console_handler; file_handler])).

Definition success_logged : event :=
  LogInfo [Text "The project has finished with success"].

(** The [__main__] block: [setup_logging()], [main()], then the closing
    message; with the state it ends in and the lines it has put out. *)
Definition script (fuel : nat) (st : State) (l : Logging.logger)
    : option (State * result unit * list Logging.line) :=
  let '(st1, l1) := setup_logging st l in
  match main env fuel st1 with
  | None => None
  | Some (st2, inl e) =>
      Some (st2, inl e,
            (Logging.deliver l1 (drop (length (trace st1)) (trace st2))).2)
  | Some (st2, inr _) =>
      let st3 := emit success_logged st2 in
      Some (st3, inr tt,
            (Logging.deliver l1 (drop (length (trace st1)) (trace st3))).2)
  end.

End Script.

(** ** Vocabulary of the further properties *)


Definition next_announced (v : json) : event :=
  LogInfo [Text "Fetching next page: "; StrOf v].

Definition is_error_log (ev : event) : bool :=
  match ev with LogError _ => true | _ => false end.

Definition count (f : event -> bool) (evs : list event) : nat :=
  length (List.filter f evs).

(** The events of one pass of the loop entered with [url], and how the
    pass ends. *)
Inductive pass_shape (env : Env) (url : json) : list event -> flow -> Prop :=
| pass_unresolved e :
    url = JNull -> get_api_url env 50 = inl e ->
    pass_shape env url [error_logged e] Break
| pass_fetch_error u e :
    requested env url u ->
    pass_shape env url [HttpGet u; error_logged e] Break
| pass_persist_error u d e :
    requested env url u ->
    pass_shape env url [HttpGet u; Mkdir d; error_logged e] Break
| pass_dump_error u d p c e :
    requested env url u ->
    pass_shape env url [HttpGet u; Mkdir d; WriteFile p c; error_logged e]
      Break
| pass_done u d p c :
    requested env url u ->
    pass_shape env url [HttpGet u; Mkdir d; WriteFile p c; completion_logged]
      Break
| pass_continue u d p c v :
    requested env url u -> Py.truthy v = true ->
    pass_shape env url [HttpGet u; Mkdir d; WriteFile p c; next_announced v]
      (Continue v).

(** The events of a run: passes that continue, each entered with the
    value the one before announced, then one pass that breaks. *)
Inductive run_shape (env : Env) : json -> list event -> Prop :=
| run_shape_last url evs :
    pass_shape env url evs Break -> run_shape env url evs
| run_shape_more url evs v rest :
    pass_shape env url evs (Continue v) ->
    run_shape env v rest ->
    run_shape env url (evs ++ rest)%list.

(** The lines a list of lines holds for one stream. *)
Definition is_stderr (ln : Logging.line) : bool :=
  match Logging.on ln with Logging.Stderr => true | _ => false end.

Definition is_file (path : string) (ln : Logging.line) : bool :=
  match Logging.on ln with
  | Logging.File p => String.eqb p path
  | _ => false
  end.

(** The log records of a trace, in order. *)
Fixpoint log_records (tr : list event) : list Logging.record :=
  match tr with
  | [] => []
  | LogInfo msg :: tr' => Logging.LogRecord Logging.INFO msg :: log_records tr'
  | LogError msg :: tr' =>
      Logging.LogRecord Logging.ERROR msg :: log_records tr'
  | _ :: tr' => log_records tr'
  end.

(** The format [setup_logging] gives its two handlers, and the two lines
    a record makes with them. *)
Definition log_format : string := "%(asctime)s - %(levelname)s - %(message)s".

Definition console_line (r : Logging.record) : Logging.line :=
  Logging.Line Logging.Stderr log_format r.

Definition file_line (env : Env) (r : Logging.record) : Logging.line :=
  Logging.Line (Logging.File (path_div (cwd env) "logs/app.log")) log_format r.

(** [setup_logging] called [n] times in a row. *)
Definition setup_logging_times (env : Env) (n : nat) (st : State)
    (l : Logging.logger) : State * Logging.logger :=
  Nat.iter n (fun p => setup_logging env p.1 p.2) (st, l).




(** Text made of printable ASCII characters only (codes 32 to 126). *)
Definition printable (c : ascii) : bool :=
  let n := nat_of_ascii c in ((32 <=? n) && (n <=? 126))%nat.

Fixpoint all_printable (s : string) : bool :=
  match s with
  | EmptyString => true
  | String c r => printable c && all_printable r
  end.

(** A value whose floats all have a printable [repr], as those of Python
    have. *)
Fixpoint float_texts_printable (v : json) : bool :=
  match v with
  | JFloat r => all_printable r
  | JList l => forallb float_texts_printable l
  | JDict d => forallb (fun kv => float_texts_printable (snd kv)) d
  | _ => true
  end.


(** ** Reading JSON text *)

(** A reader of JSON text, to say what a file holds without going back
    to the encoder that wrote it: white space between tokens, strings with
    their escapes (a [\uXXXX] for a code point above 255 is beyond the
    strings of this model and is refused), numbers, the three names, lists
    and objects, and the [NaN], [Infinity] and [-Infinity] that Python
    writes and reads.  A number with a fraction or an exponent is a float
    and is carried by the text of its token, an object is a mapping in
    which a key that comes twice keeps its place and takes the later value.
    [fuel] bounds the number of values, lists and members gone into. *)
Module JsonText.



























End JsonText.









(** * Properties *)

(** ** Exceptions *)

Lemma issubclass_Exception (c : Exn.class) :
  Exn.issubclass c Exn.Exception = true.
Proof. by destruct c. Qed.

Lemma isinstance_Exception (e : exn) : Exn.isinstance e Exn.Exception = true.
Proof. apply issubclass_Exception. Qed.

(** ** Strings *)

Lemma append_cons (c : ascii) (s t : string) :
  String c s ++ t = String c (s ++ t).
Proof. reflexivity. Qed.

Lemma append_nil_r (s : string) : s ++ EmptyString = s.
Proof.
  induction s as [|c s IH]; [done|]. by rewrite append_cons, IH.
Qed.

Lemma append_length (s t : string) :
  String.length (s ++ t) = (String.length s + String.length t)%nat.
Proof.
  induction s as [|c s IH]; [done|]. rewrite append_cons. simpl. by rewrite IH.
Qed.

Lemma append_assoc (s1 s2 s3 : string) : (s1 ++ s2) ++ s3 = s1 ++ s2 ++ s3.
Proof.
  induction s1 as [|c s1 IH]; [done|]. by rewrite !append_cons, IH.
Qed.


(** ** The configuration reader *)

Section ConfigReader.

Context (map : string -> option string) (option section rawval : string).


Lemma until_paren_length (s name rest : string) :
  ConfigParser.until_paren s = Some (name, rest) ->
  (String.length rest < String.length s)%nat.
Proof.
  revert name. induction s as [|c s IH]; intros name; [done|].
  cbn [ConfigParser.until_paren String.length].
  destruct (Ascii.eqb c ")"); [intros [= _ <-]; lia|].
  destruct (ConfigParser.until_paren s) as [[name' rest']|]; [|done].
  intros [= _ <-]. specialize (IH name' eq_refl). lia.
Qed.

Lemma key_reference_length (s name rest : string) :
  ConfigParser.key_reference s = Some (name, rest) ->
  (String.length rest < String.length s)%nat.
Proof.
  unfold ConfigParser.key_reference.
  destruct (ConfigParser.until_paren s) as [[[|c name'] [|c' rest']]|] eqn:Hs;
    try done.
  apply until_paren_length in Hs. cbn [String.length] in Hs.
  destruct c' as [[] [] [] [] [] [] [] []]; try done.
  intros [= _ <-]. lia.
Qed.

(** The bound on the passes of the loop is never what stops it. *)
Lemma scan_bound deeper n n' rest accum :
  (String.length rest < n)%nat -> (String.length rest < n')%nat ->
  ConfigParser.scan map option section rawval deeper n rest accum
  = ConfigParser.scan map option section rawval deeper n' rest accum.
Proof.
  revert n' rest accum.
  induction n as [|n IH]; intros n' rest accum Hn Hn'; [lia|].
  destruct n' as [|n']; [lia|].
  destruct rest as [|c rest]; [done|].
  cbn [ConfigParser.scan String.length] in *.
  destruct (negb (Ascii.eqb c "%")); [apply IH; lia|].
  destruct rest as [|c' rest]; [done|]. cbn [String.length] in *.
  destruct (Ascii.eqb_spec c' "%") as [->|Hc1]; [apply IH; lia|].
  destruct (Ascii.eqb_spec c' "(") as [->|Hc2].
  - destruct (ConfigParser.key_reference rest) as [[name rest3]|] eqn:Hkey;
      [|done].
    apply key_reference_length in Hkey.
    destruct (map _) as [v|]; [|done].
    destruct (ConfigParser.has_percent v); [|apply IH; lia].
    destruct (deeper v); [done|apply IH; lia].
  - destruct c' as [[] [] [] [] [] [] [] []]; try done; by contradiction.
Qed.


End ConfigReader.


(** What interpolation does to a value that has a ["%"]: an escape, a
    reference resolved through [DEFAULT], a reference to itself. *)
Example interpolation_escape :
  ConfigParser.get (Sample.config_with "https://x/?q=100%%&limit=")
    "api" "api_url" false = inr "https://x/?q=100%&limit=".
Proof. reflexivity. Qed.

Example interpolation_reference :
  ConfigParser.get
    (ConfigParser.Parsed {[ "host" := "api.test" ]}
       {[ "api" := {[ "api_url" := "https://%(HOST)s/?limit=" ]} ]})
    "api" "api_url" false = inr "https://api.test/?limit=".
Proof. reflexivity. Qed.

Example interpolation_depth :
  ConfigParser.get (Sample.config_with "%(api_url)s") "api" "api_url" false
  = inl (Exn.Raise Exn.InterpolationDepthError
           ["api_url"; "api"; "%(api_url)s"]).
Proof. reflexivity. Qed.

(** [ConfigParser.get] raises its own errors, never a [KeyError]: the
    [except KeyError] clause of [get_api_url] has nothing to catch. *)
Lemma scan_not_KeyError map option section rawval deeper n rest accum e :
  (forall text e', deeper text = inl e' ->
                   Exn.isinstance e' Exn.KeyError = false) ->
  ConfigParser.scan map option section rawval deeper n rest accum = inl e ->
  Exn.isinstance e Exn.KeyError = false.
Proof.
  intros Hdeeper. revert rest accum.
  induction n as [|n IH]; intros rest accum; destruct rest as [|c rest];
    simpl; try done.
  destruct (negb (Ascii.eqb c "%")); [by apply IH|].
  destruct rest as [|c' rest]; [by intros [= <-]|].
  destruct (Ascii.eqb_spec c' "%") as [->|Hc1]; [by apply IH|].
  destruct (Ascii.eqb_spec c' "(") as [->|Hc2].
  - destruct (ConfigParser.key_reference rest) as [[name rest3]|];
      [|by intros [= <-]].
    destruct (map _) as [v|]; [|by intros [= <-]].
    destruct (ConfigParser.has_percent v); [|by apply IH].
    destruct (deeper v) as [e'|s] eqn:Hv; [|by apply IH].
    intros [= <-]. by eapply Hdeeper.
  - destruct c' as [[] [] [] [] [] [] [] []]; try (by intros [= <-]);
      by contradiction.
Qed.

Lemma interpolate_not_KeyError map option section rawval depth text e :
  ConfigParser.interpolate_some map option section rawval depth text = inl e ->
  Exn.isinstance e Exn.KeyError = false.
Proof.
  revert text e. induction depth as [|depth IH]; intros text e.
  - by intros [= <-].
  - cbn [ConfigParser.interpolate_some]. apply scan_not_KeyError.
    intros text' e'. apply IH.
Qed.

Lemma get_not_KeyError (p : ConfigParser.t) (section option : string)
    (raw : bool) (e : exn) :
  ConfigParser.get p section option raw = inl e ->
  Exn.isinstance e Exn.KeyError = false.
Proof.
  unfold ConfigParser.get.
  destruct (ConfigParser.sections p !! section) as [d|].
  - destruct (match d !! _ with Some v => _ | None => _ end);
      [|by intros [= <-]].
    destruct raw; [done|]. apply interpolate_not_KeyError.
  - destruct (String.eqb section "DEFAULT"); [|by intros [= <-]].
    destruct (match _ !! _ with Some v => _ | None => _ end);
      [|by intros [= <-]].
    destruct raw; [done|]. apply interpolate_not_KeyError.
Qed.

(** What [get_api_url] returns is what [ConfigParser.get] returns, with
    the limit appended; what [get] raises goes through unchanged. *)
Lemma get_api_url_get (env : Env) (p : ConfigParser.t) (limit : Z) :
  conf env = ConfigContent (inr p) ->
  get_api_url env limit =
    match ConfigParser.get p "api" "api_url" false with
    | inl e => inl e
    | inr api_url => inr (api_url ++ Py.str_int limit)
    end.
Proof.
  intros Hconf. unfold get_api_url, config_exists, config_read.
  rewrite Hconf. cbn [negb]. unfold try_except.
  destruct (ConfigParser.get p "api" "api_url" false) as [e|s] eqn:Hget;
    [|done].
  by rewrite (get_not_KeyError _ _ _ _ _ Hget).
Qed.

Lemma get_api_url_config_missing (env : Env) (limit : Z) :
  conf env = ConfigAbsent ->
  get_api_url env limit =
    inl (Exn.Raise Exn.FileNotFoundError
           ["Configuration file 'config/api.conf' not found."]).
Proof.
  intros Hconf. unfold get_api_url, config_exists. by rewrite Hconf.
Qed.




(** C4: when the configuration file does not exist [get_api_url] raises
    [FileNotFoundError]; when it exists and lacks the [api] section or the
    [api_url] key, what is raised is [ConfigParser]'s [NoSectionError] or
    [NoOptionError], which the [except KeyError] clause does not catch:
    no [KeyError] comes out. *)
Theorem get_api_url_missing_key (env : Env) (limit : Z) :
  (conf env = ConfigAbsent ->
   exists e, get_api_url env limit = inl e
             /\ Exn.cls e = Exn.FileNotFoundError)
  /\ (forall p, conf env = ConfigContent (inr p) -> lacks_api_url p ->
      exists e, get_api_url env limit = inl e
                /\ (e = Exn.Raise Exn.NoSectionError ["api"]
                    \/ e = Exn.Raise Exn.NoOptionError ["api_url"; "api"])
                /\ Exn.isinstance e Exn.KeyError = false).
Proof.
  split.
  - intros Hconf. rewrite (get_api_url_config_missing _ _ Hconf). eauto.
  - intros p Hconf Hlacks. rewrite (get_api_url_get _ _ _ Hconf).
    unfold lacks_api_url in Hlacks. unfold ConfigParser.get.
    destruct (ConfigParser.sections p !! "api") as [d|].
    + destruct Hlacks as [Hd Hdef].
      change (ConfigParser.optionxform "api_url") with "api_url".
      rewrite Hd, Hdef. eauto.
    + change (String.eqb "api" "DEFAULT") with false. cbv iota. eauto.
Qed.

(** An empty configuration file: [NoSectionError], not [KeyError]. *)
Lemma get_api_url_missing_key_witness :
  exists e, get_api_url Sample.env_no_section 50 = inl e
            /\ (e = Exn.Raise Exn.NoSectionError ["api"]
                \/ e = Exn.Raise Exn.NoOptionError ["api_url"; "api"])
            /\ Exn.isinstance e Exn.KeyError = false.
Proof.
  apply (proj2 (get_api_url_missing_key Sample.env_no_section 50)
           ConfigParser.empty); [reflexivity | exact I].
Defined.

(** An [api] section without [api_url]: [NoOptionError]. *)
Example get_api_url_no_option :
  get_api_url Sample.env_no_option 50
  = inl (Exn.Raise Exn.NoOptionError ["api_url"; "api"]).
Proof. reflexivity. Qed.

(** A configuration file that exists and cannot be opened is read as
    empty. *)
Example get_api_url_unreadable :
  get_api_url (Sample.env_with ConfigUnreadable) 50
  = inl (Exn.Raise Exn.NoSectionError ["api"]).
Proof. reflexivity. Qed.

(** ** The page fetcher *)

Lemma http_error_inj (status status' : Z) :
  http_error status = http_error status' -> status = status'.
Proof.
  unfold http_error, Py.str_int. intros [= H].
  apply (inj (@pretty Z _)). exact H.
Qed.

(** C2: whatever URL [get_data] requests, a response whose status is not
    200 makes it raise [HTTPError] with the status in its message (distinct
    statuses give distinct errors), 2xx codes included; a response of
    status 200 makes it return the JSON decoding of the body. *)
Theorem get_data_strict_200 (env : Env) (api_url url : json) (st : State)
    (r : response) :
  requested env api_url url ->
  http env (trace st) url = inr r ->
  (status_code r <> 200 ->
   get_data env api_url st
     = (emit (HttpGet url) st, inl (http_error (status_code r)))
   /\ Exn.cls (http_error (status_code r)) = Exn.HTTPError
   /\ forall status, http_error status = http_error (status_code r) ->
                     status = status_code r)
  /\ (status_code r = 200 ->
      get_data env api_url st
        = (emit (HttpGet url) st, response_json r)
      /\ forall v, body r = Some v -> response_json r = inr v).
Proof.
  intros Hurl Hhttp.
  assert (get_data env api_url st =
            (emit (HttpGet url) st,
             if negb (status_code r =? 200)
             then inl (http_error (status_code r))
             else response_json r)) as ->.
  { unfold get_data, bind, requests_get.
    destruct Hurl as [api_url Hne|s Hs].
    - destruct api_url; try done; unfold ret; rewrite Hhttp;
        by destruct (negb _).
    - unfold lift. rewrite Hs, Hhttp. by destruct (negb _). }
  split; intros Hstatus.
  - apply Z.eqb_neq in Hstatus. rewrite Hstatus.
    repeat split; auto using http_error_inj.
  - apply Z.eqb_eq in Hstatus. rewrite Hstatus. split; [done|].
    intros v Hv. unfold response_json. by rewrite Hv.
Qed.

(** Status 201, a success code other than 200, is an error too. *)
Lemma get_data_strict_200_witness :
  get_data Sample.env (JStr "https://api.test/created") Sample.fresh
  = (emit (HttpGet (JStr "https://api.test/created")) Sample.fresh,
     inl (Exn.Raise Exn.HTTPError ["Failed to fetch data. Status code: 201"])).
Proof.
  refine (proj1 (proj1 (get_data_strict_200 Sample.env
                          (JStr "https://api.test/created")
                          (JStr "https://api.test/created") Sample.fresh
                          (Response 201 (Some Sample.page7)) _ _) _)).
  - by constructor.
  - reflexivity.
  - simpl. lia.
Defined.

(** The statuses 201, 204, 404 and 500, each raised with its own code. *)
Example get_data_non_200 :
  Forall (fun code =>
            (get_data (Sample.env_status code) (JStr "https://api.test/")
               Sample.fresh).2 = inl (http_error code))
    [201; 204; 404; 500].
Proof. repeat constructor. Qed.

(** ** Decimal numbers *)




(** ** The page writer *)

Lemma path_div_data (cwd date : string) :
  path_div (path_div cwd "data") date = path_div cwd ("data/" ++ date).
Proof.
  unfold path_div. destruct (String.eqb_spec cwd "/") as [->|Hcwd]; [done|].
  destruct (String.eqb_spec (cwd ++ "/" ++ "data") "/") as [Heq|_].
  - apply (f_equal String.length) in Heq.
    rewrite append_length in Heq. simpl in Heq. lia.
  - by rewrite !append_assoc.
Qed.

Lemma folder_path_eq (env : Env) (st : State) :
  path_div (path_div (cwd env) "data") (strftime_Ymd (now env (trace st)))
  = dated_folder env st.
Proof. apply path_div_data. Qed.

Lemma file_path_eq (env : Env) (st : State) (last_id : string) :
  dated_folder env st ++ "/" ++ last_id ++ ".json" = page_file env st last_id.
Proof.
  unfold dated_folder, page_file, path_div.
  destruct (String.eqb (cwd env) "/"); by rewrite !append_assoc.
Qed.

(** *** The encoder *)

Lemma json_nested_ind (P : json -> Prop) :
  P JNull ->
  (forall b, P (JBool b)) ->
  (forall n, P (JInt n)) ->
  (forall r, P (JFloat r)) ->
  (forall s, P (JStr s)) ->
  (forall l, Forall P l -> P (JList l)) ->
  (forall d, Forall (fun kv => P (snd kv)) d -> P (JDict d)) ->
  forall v, P v.
Proof.
  intros Hnull Hbool Hint Hfloat Hstr Hlist Hdict.
  refine (fix go (v : json) : P v :=
            match v with
            | JNull => Hnull
            | JBool b => Hbool b
            | JInt n => Hint n
            | JFloat r => Hfloat r
            | JStr s => Hstr s
            | JList l =>
                Hlist l ((fix items (l : list json) : Forall P l :=
                            match l with
                            | [] => @Lists.List.Forall_nil _ _
                            | x :: l' => @Lists.List.Forall_cons _ _ x l' (go x) (items l')
                            end) l)
            | JDict d =>
                Hdict d ((fix fields (d : list (string * json))
                            : Forall (fun kv => P (snd kv)) d :=
                            match d with
                            | [] => @Lists.List.Forall_nil _ _
                            | kv :: d' =>
                                @Lists.List.Forall_cons _ _ kv d' (go (snd kv)) (fields d')
                            end) d)
            end).
Qed.

Lemma iterencode_list_finished (deeper : json -> string * option exn)
    (f : json -> string) (l : list json) (buf : string) :
  Forall (fun x => deeper x = (f x, None)) l ->
  l <> [] ->
  Json.iterencode_list deeper buf l
  = (buf ++ Json.join (List.map f l) ++ "]", None).
Proof.
  intros Hl. revert buf.
  induction Hl as [|x l Hx Hl IH]; [done|]. intros buf _.
  cbn [Json.iterencode_list List.map]. rewrite Hx.
  destruct l as [|y l].
  - cbn [Json.iterencode_list List.map Json.join]. done.
  - rewrite IH by done. cbn [List.map Json.join].
    by rewrite !append_assoc.
Qed.

Lemma iterencode_dict_finished (deeper : json -> string * option exn)
    (f : json -> string) (d : list (string * json)) (sep : string) :
  Forall (fun kv => deeper (snd kv) = (f (snd kv), None)) d ->
  d <> [] ->
  Json.iterencode_dict deeper sep d
  = (sep ++ Json.join (List.map (fun kv => Json.encode_str (fst kv) ++ ": "
                                             ++ f (snd kv)) d) ++ "}", None).
Proof.
  intros Hd. revert sep.
  induction Hd as [|kv d Hx Hd IH]; [done|]. intros sep _.
  cbn [Json.iterencode_dict List.map]. rewrite Hx.
  destruct d as [|kv' d].
  - cbn [Json.iterencode_dict List.map Json.join]. by rewrite !append_assoc.
  - rewrite IH by done. cbn [List.map Json.join].
    by rewrite !append_assoc.
Qed.

(** A loop is stopped by the first item that is, with that item's
    exception. *)
Lemma iterencode_list_stopped (deeper : json -> string * option exn)
    (l : list json) (buf : string) (e : exn) :
  (Json.iterencode_list deeper buf l).2 = Some e ->
  exists x, x ∈ l /\ (deeper x).2 = Some e.
Proof.
  revert buf. induction l as [|x l IH]; intros buf; [done|].
  cbn [Json.iterencode_list].
  destruct (deeper x) as [text [e'|]] eqn:Hx.
  - intros [= ->]. exists x. rewrite Hx. split; [by left|done].
  - specialize (IH ", ").
    destruct (Json.iterencode_list deeper ", " l) as [more stopped].
    cbn [snd] in *. intros Hs. destruct (IH Hs) as (y & Hy & He).
    exists y. split; [by right|done].
Qed.

Lemma iterencode_dict_stopped (deeper : json -> string * option exn)
    (d : list (string * json)) (sep : string) (e : exn) :
  (Json.iterencode_dict deeper sep d).2 = Some e ->
  exists kv, kv ∈ d /\ (deeper (snd kv)).2 = Some e.
Proof.
  revert sep. induction d as [|kv d IH]; intros sep; [done|].
  cbn [Json.iterencode_dict].
  destruct (deeper (snd kv)) as [text [e'|]] eqn:Hx.
  - intros [= ->]. exists kv. rewrite Hx. split; [by left|done].
  - specialize (IH ", ").
    destruct (Json.iterencode_dict deeper ", " d) as [more stopped].
    cbn [snd] in *. intros Hs. destruct (IH Hs) as (y & Hy & He).
    exists y. split; [by right|done].
Qed.

Lemma list_max_Forall (l : list nat) (n : nat) :
  (list_max l <= n)%nat <-> Forall (fun k => (k <= n)%nat) l.
Proof.
  induction l as [|k l IH]; cbn [list_max fold_right].
  - split; [constructor|lia].
  - rewrite Forall_cons, <- IH. fold (list_max l). lia.
Qed.

Lemma list_max_Exists (l : list nat) (n : nat) :
  (n < list_max l)%nat <-> Exists (fun k => (n < k)%nat) l.
Proof.
  induction l as [|k l IH]; cbn [list_max fold_right].
  - rewrite Exists_nil. lia.
  - rewrite Exists_cons, <- IH. fold (list_max l). lia.
Qed.

(** With frames enough and integers short enough, [json.dump] writes
    the whole text. *)
Lemma iterencode_fits (digits : nat) (v : json) (room : nat) :
  (Json.frames v <= room)%nat ->
  Json.ints_fit digits v = true ->
  Json.iterencode digits v room = (Json.dumps v, None).
Proof.
  revert room.
  induction v as [|b|n|r|s|l IH|d IH] using json_nested_ind; intros room;
    cbn [Json.frames Json.iterencode Json.dumps Json.ints_fit]; try done.
  - by destruct b.
  - intros _ Hn%negb_true_iff. unfold Py.repr_int. by rewrite Hn.
  - destruct room; [lia|done].
  - destruct room as [|room]; [lia|]. intros Hroom Hints.
    destruct l as [|x l]; [done|].
    apply (iterencode_list_finished _ Json.dumps); [|done].
    assert (list_max (List.map Json.frames (x :: l)) <= room)%nat as Hmax
      by lia.
    apply list_max_Forall, Forall_map in Hmax.
    rewrite forallb_forall in Hints.
    rewrite Forall_forall in IH, Hmax |- *. intros y Hy.
    apply (IH y Hy); [apply (Hmax y Hy)|]. by apply Hints, list_elem_of_In.
  - destruct room as [|room]; [lia|]. intros Hroom Hints.
    destruct d as [|kv d]; [done|].
    rewrite (iterencode_dict_finished _ Json.dumps); [done| |done].
    assert (list_max (List.map (fun kv => Json.frames (snd kv)) (kv :: d))
            <= room)%nat as Hmax by lia.
    apply list_max_Forall, Forall_map in Hmax.
    rewrite forallb_forall in Hints.
    rewrite Forall_forall in IH, Hmax |- *. intros y Hy.
    apply (IH y Hy); [apply (Hmax y Hy)|].
    by apply (Hints y), list_elem_of_In.
Qed.

Lemma iterencode_list_through (deeper : json -> string * option exn)
    (l : list json) (buf : string) :
  (Json.iterencode_list deeper buf l).2 = None ->
  Forall (fun x => (deeper x).2 = None) l.
Proof.
  revert buf. induction l as [|x l IH]; intros buf; [constructor|].
  cbn [Json.iterencode_list].
  destruct (deeper x) as [text [e|]] eqn:Hx; [done|].
  specialize (IH ", ").
  destruct (Json.iterencode_list deeper ", " l) as [more stopped].
  cbn [snd] in *. intros Hs. constructor; [by rewrite Hx|by apply IH].
Qed.

Lemma iterencode_dict_through (deeper : json -> string * option exn)
    (d : list (string * json)) (sep : string) :
  (Json.iterencode_dict deeper sep d).2 = None ->
  Forall (fun kv => (deeper (snd kv)).2 = None) d.
Proof.
  revert sep. induction d as [|kv d IH]; intros sep; [constructor|].
  cbn [Json.iterencode_dict].
  destruct (deeper (snd kv)) as [text [e|]] eqn:Hx; [done|].
  specialize (IH ", ").
  destruct (Json.iterencode_dict deeper ", " d) as [more stopped].
  cbn [snd] in *. intros Hs. constructor; [by rewrite Hx|by apply IH].
Qed.

(** It gets through only with frames enough and integers short
    enough. *)
Lemma iterencode_through (digits : nat) (v : json) (room : nat) :
  (Json.iterencode digits v room).2 = None ->
  (Json.frames v <= room)%nat /\ Json.ints_fit digits v = true.
Proof.
  revert room.
  induction v as [|b|n|r|s|l IH|d IH] using json_nested_ind; intros room;
    cbn [Json.frames Json.iterencode Json.ints_fit];
    try (intros _; split; [lia|done]).
  - unfold Py.repr_int. destruct (Py.int_too_long digits n); [done|].
    intros _. split; [lia|done].
  - destruct room; [done|]. intros _. split; [lia|done].
  - destruct room as [|room]; [done|].
    destruct l as [|x l]; [intros _; cbn; split; [lia|done]|].
    intros Hall%iterencode_list_through.
    rewrite Forall_forall in IH, Hall. split.
    + enough (list_max (List.map Json.frames (x :: l)) <= room)%nat by lia.
      apply list_max_Forall, Forall_map, Forall_forall. intros y Hy.
      by apply (IH y Hy room), Hall.
    + apply forallb_forall. intros y Hy%list_elem_of_In.
      by apply (IH y Hy room), Hall.
  - destruct room as [|room]; [done|].
    destruct d as [|kv d]; [intros _; cbn; split; [lia|done]|].
    pose proof (iterencode_dict_through
                  (fun x => Json.iterencode digits x room) (kv :: d)
                  EmptyString) as Hthrough.
    destruct (Json.iterencode_dict _ _ (kv :: d)) as [text stopped].
    cbn [snd] in *. intros Hall%Hthrough.
    rewrite Forall_forall in IH, Hall. split.
    + enough (list_max (List.map (fun kv => Json.frames (snd kv)) (kv :: d))
              <= room)%nat by lia.
      apply list_max_Forall, Forall_map, Forall_forall. intros y Hy.
      by apply (IH y Hy room), Hall.
    + apply forallb_forall. intros y Hy%list_elem_of_In.
      by apply (IH y Hy room), Hall.
Qed.

(** It is stopped only for want of frames or by an integer too long;
    the exception tells which. *)
Lemma iterencode_stopped (digits : nat) (v : json) (room : nat) (e : exn) :
  (Json.iterencode digits v room).2 = Some e ->
  (e = Json.recursion_error /\ (room < Json.frames v)%nat)
  \/ (e = Py.int_error digits /\ Json.ints_fit digits v = false).
Proof.
  revert room.
  induction v as [|b|n|r|s|l IH|d IH] using json_nested_ind; intros room;
    cbn [Json.frames Json.iterencode Json.ints_fit]; try done.
  - by destruct b.
  - unfold Py.repr_int. destruct (Py.int_too_long digits n); [|done].
    intros [= <-]. by right.
  - destruct room; [|done]. intros [= <-]. left. split; [done|lia].
  - destruct room as [|room]; [intros [= <-]; left; split; [done|lia]|].
    destruct l as [|x l]; [done|].
    intros (y & Hy & He)%iterencode_list_stopped.
    rewrite Forall_forall in IH.
    destruct (IH y Hy room He) as [[-> Hdeep]|[-> Hint]].
    + left. split; [done|].
      enough (room < list_max (List.map Json.frames (x :: l)))%nat by lia.
      apply list_max_Exists, Exists_exists. exists (Json.frames y).
      split; [|done]. apply list_elem_of_fmap. eauto.
    + right. split; [done|]. apply not_true_is_false. intros Hall.
      rewrite forallb_forall in Hall.
      by rewrite (Hall y) in Hint by (by apply list_elem_of_In).
  - destruct room as [|room]; [intros [= <-]; left; split; [done|lia]|].
    destruct d as [|kv d]; [done|].
    pose proof (iterencode_dict_stopped
                  (fun x => Json.iterencode digits x room) (kv :: d)
                  EmptyString e) as Hstop.
    destruct (Json.iterencode_dict _ _ (kv :: d)) as [text stopped].
    cbn [snd] in *. intros (y & Hy & He)%Hstop.
    rewrite Forall_forall in IH.
    destruct (IH y Hy room He) as [[-> Hdeep]|[-> Hint]].
    + left. split; [done|].
      enough (room < list_max (List.map (fun kv => Json.frames (snd kv))
                                (kv :: d)))%nat by lia.
      apply list_max_Exists, Exists_exists. exists (Json.frames (snd y)).
      split; [|done]. apply list_elem_of_fmap. eauto.
    + right. split; [done|]. apply not_true_is_false. intros Hall.
      rewrite forallb_forall in Hall.
      by rewrite (Hall y) in Hint by (by apply list_elem_of_In).
Qed.

Lemma join_cons (c c' : string) (rest : list string) :
  Json.join (c :: c' :: rest) = c ++ ", " ++ Json.join (c' :: rest).
Proof. done. Qed.

Lemma append_not_empty_r (s t : string) :
  t <> EmptyString -> s ++ t <> EmptyString.
Proof.
  intros Ht Heq. apply (f_equal String.length) in Heq.
  rewrite append_length in Heq. destruct t; [done|]. cbn in Heq. lia.
Qed.

(** What comes out of a loop that is cut short is the beginning of what
    would have come out, and lacks at least the closing bracket. *)
Lemma iterencode_list_prefix (deeper : json -> string * option exn)
    (f : json -> string) (l : list json) (buf : string) :
  Forall (fun x => exists rest, f x = (deeper x).1 ++ rest
                                /\ ((deeper x).2 = None -> rest = EmptyString))
    l ->
  exists rest,
    match l with
    | [] => "]"
    | _ => buf ++ Json.join (List.map f l) ++ "]"
    end = (Json.iterencode_list deeper buf l).1 ++ rest
    /\ ((Json.iterencode_list deeper buf l).2 = None -> rest = EmptyString)
    /\ ((Json.iterencode_list deeper buf l).2 <> None -> rest <> EmptyString).
Proof.
  intros Hl. revert buf.
  induction Hl as [|x l (r & Hx & Hr) Hl IH]; intros buf.
  - exists EmptyString. by cbn.
  - cbn [Json.iterencode_list List.map].
    destruct (deeper x) as [text [e|]]; cbn [fst snd] in *; cycle 1.
    + rewrite Hr in Hx by done. rewrite append_nil_r in Hx.
      destruct (IH ", ") as (rest & Hfull & Hfin & Hcut).
      destruct (Json.iterencode_list deeper ", " l) as [more fin'].
      cbn [fst snd] in *. exists rest. split; [|done].
      rewrite Hx. destruct l as [|y l].
      * cbn [List.map Json.join]. by rewrite !append_assoc, <- Hfull.
      * cbn [List.map Json.join] in *. by rewrite !append_assoc, <- Hfull.
    + set (tail := match l with
                   | [] => "]"
                   | _ => ", " ++ Json.join (List.map f l) ++ "]"
                   end).
      assert (Json.join (f x :: List.map f l) ++ "]" = f x ++ tail) as ->.
      { unfold tail. destruct l; cbn [List.map Json.join]; [done|].
        by rewrite !append_assoc. }
      assert (tail <> EmptyString) as Htail by (unfold tail; by destruct l).
      destruct (Json.is_container x).
      * exists (r ++ tail). rewrite Hx, !append_assoc.
        split; [done|]. split; [done|]. intros _.
        by apply append_not_empty_r.
      * exists (buf ++ f x ++ tail). split; [done|]. split; [done|].
        intros _. by apply append_not_empty_r, append_not_empty_r.
Qed.

Lemma iterencode_dict_prefix (deeper : json -> string * option exn)
    (f : json -> string) (d : list (string * json)) (sep : string) :
  Forall (fun kv => exists rest,
            f (snd kv) = (deeper (snd kv)).1 ++ rest
            /\ ((deeper (snd kv)).2 = None -> rest = EmptyString)) d ->
  exists rest,
    match d with
    | [] => "}"
    | _ => sep ++ Json.join (List.map (fun kv => Json.encode_str (fst kv)
                                                   ++ ": " ++ f (snd kv)) d)
             ++ "}"
    end = (Json.iterencode_dict deeper sep d).1 ++ rest
    /\ ((Json.iterencode_dict deeper sep d).2 = None -> rest = EmptyString)
    /\ ((Json.iterencode_dict deeper sep d).2 <> None -> rest <> EmptyString).
Proof.
  intros Hd. revert sep.
  induction Hd as [|kv d (r & Hx & Hr) Hd IH]; intros sep.
  - exists EmptyString. by cbn.
  - cbn [Json.iterencode_dict List.map].
    destruct (deeper (snd kv)) as [text [e|]]; cbn [fst snd] in *; cycle 1.
    + rewrite Hr in Hx by done. rewrite append_nil_r in Hx.
      destruct (IH ", ") as (rest & Hfull & Hfin & Hcut).
      destruct (Json.iterencode_dict deeper ", " d) as [more fin'].
      cbn [fst snd] in *. exists rest. split; [|done].
      rewrite Hx. destruct d as [|kv' d].
      * cbn [List.map Json.join]. by rewrite !append_assoc, <- Hfull.
      * cbn [List.map] in *. rewrite join_cons.
        by rewrite !append_assoc, <- Hfull.
    + set (tail := match d with
                   | [] => "}"
                   | _ => ", " ++ Json.join
                                    (List.map (fun kv => Json.encode_str (fst kv)
                                                 ++ ": " ++ f (snd kv)) d)
                            ++ "}"
                   end).
      assert (tail <> EmptyString) as Htail by (unfold tail; by destruct d).
      exists (r ++ tail). rewrite Hx. split; [|split; [done|]].
      * unfold tail. destruct d; cbn [List.map Json.join];
          by rewrite !append_assoc.
      * intros _. by apply append_not_empty_r.
Qed.

Lemma iterencode_prefix (digits : nat) (v : json) (room : nat) :
  exists rest,
    Json.dumps v = (Json.iterencode digits v room).1 ++ rest
    /\ ((Json.iterencode digits v room).2 = None -> rest = EmptyString)
    /\ ((Json.iterencode digits v room).2 <> None ->
        Json.is_container v = true -> rest <> EmptyString).
Proof.
  revert room.
  induction v as [|b|n|r|s|l IH|d IH] using json_nested_ind; intros room;
    cbn [Json.iterencode Json.dumps Json.is_container].
  - exists EmptyString. by rewrite append_nil_r.
  - exists EmptyString. destruct b; by rewrite append_nil_r.
  - unfold Py.repr_int. destruct (Py.int_too_long digits n).
    + by exists (Py.str_int n).
    + exists EmptyString. by rewrite append_nil_r.
  - destruct room; [by exists (Json.encode_float r)|].
    exists EmptyString. by rewrite append_nil_r.
  - exists EmptyString. by rewrite append_nil_r.
  - destruct room as [|room]; [by eexists|].
    destruct l as [|x l]; [exists EmptyString; by rewrite append_nil_r|].
    destruct (iterencode_list_prefix (fun x => Json.iterencode digits x room)
                Json.dumps (x :: l) "[") as (rest & Hfull & Hfin & Hcut).
    { rewrite Forall_forall in IH |- *. intros y Hy.
      destruct (IH y Hy room) as (rest & ? & ? & _). eauto. }
    exists rest. split; [done|]. split; [done|]. intros Hun _. by apply Hcut.
  - destruct room as [|room]; [by eexists|].
    destruct d as [|kv d]; [exists EmptyString; by rewrite append_nil_r|].
    destruct (iterencode_dict_prefix (fun x => Json.iterencode digits x room)
                Json.dumps (kv :: d) EmptyString)
      as (rest & Hfull & Hfin & Hcut).
    { rewrite Forall_forall in IH |- *. intros y Hy.
      destruct (IH y Hy room) as (rest & ? & ? & _). eauto. }
    destruct (Json.iterencode_dict _ _ (kv :: d)) as [text fin].
    cbn [fst snd] in *. exists rest. rewrite append_assoc.
    split; [by rewrite <- Hfull|]. split; [done|]. intros Hun _. by apply Hcut.
Qed.

(** [json.dump] gets through exactly the values that are [dumpable];
    of a list or a mapping that it does not get through, it leaves less
    than the text. *)
Lemma dump_dumpable (env : Env) (v : json) :
  dumpable env v = true ->
  Json.iterencode (int_max_str_digits env) v (recursion_room env)
  = (Json.dumps v, None).
Proof.
  intros [Hroom%Nat.leb_le Hints]%andb_prop. by apply iterencode_fits.
Qed.

Lemma dump_finished (env : Env) (v : json) :
  (Json.iterencode (int_max_str_digits env) v (recursion_room env)).2 = None ->
  dumpable env v = true.
Proof.
  intros [Hroom Hints]%iterencode_through. unfold dumpable.
  apply Nat.leb_le in Hroom. by rewrite Hroom.
Qed.

Lemma dump_stopped (env : Env) (v : json) (e : exn) :
  (Json.iterencode (int_max_str_digits env) v (recursion_room env)).2
  = Some e ->
  dumpable env v = false
  /\ (e = Json.recursion_error \/ e = Py.int_error (int_max_str_digits env))
  /\ (Json.is_container v = true ->
      cut_short
        (Json.iterencode (int_max_str_digits env) v (recursion_room env)).1
        (Json.dumps v)).
Proof.
  intros Hstop. split; [|split].
  - unfold dumpable.
    destruct (iterencode_stopped _ _ _ _ Hstop) as [[_ Hdeep]|[_ ->]].
    + apply Nat.leb_gt in Hdeep. by rewrite Hdeep.
    + apply andb_false_r.
  - destruct (iterencode_stopped _ _ _ _ Hstop) as [[-> _]|[-> _]]; auto.
  - intros Hv.
    destruct (iterencode_prefix (int_max_str_digits env) v
                (recursion_room env)) as (rest & Hfull & _ & Hcut).
    exists rest. split; [|done]. apply Hcut; [|done]. by rewrite Hstop.
Qed.

Lemma dump_error_class (env : Env) (e : exn) :
  e = Json.recursion_error \/ e = Py.int_error (int_max_str_digits env) ->
  (Exn.cls e = Exn.RecursionError \/ Exn.cls e = Exn.ValueError)
  /\ e <> Exn.Raise Exn.ValueError
            ["'results' key is missing or empty in the provided data."].
Proof.
  intros [-> | ->]; (split; [auto|]); [done|].
  unfold Py.int_error. by intros [= Heq].
Qed.

(** *** Reading back what the encoder writes *)































(** *** The file name *)

Lemma open_error_openable (path : string) :
  open_error path = None <-> openable path = true.
Proof.
  unfold open_error, openable, NAME_MAX, PATH_MAX.
  destruct (has_nul path); [done|]. cbn [negb andb].
  destruct (existsb _ _) eqn:Hex.
  - cbn [orb]. split; [done|]. intros [Hall _]%andb_prop.
    apply existsb_exists in Hex as (name & Hin & Hlong).
    rewrite forallb_forall in Hall. specialize (Hall name Hin).
    apply Nat.ltb_lt in Hlong. apply Nat.leb_le in Hall. lia.
  - cbn [orb].
    assert (forallb (fun name => (utf8_length name <=? 255)%nat)
              (Py.split_slash path) = true) as ->.
    { apply forallb_forall. intros name Hin. apply Nat.leb_le.
      destruct (Nat.le_gt_cases (utf8_length name) 255) as [|Hlong]; [done|].
      assert (existsb (fun name => (255 <? utf8_length name)%nat)
                (Py.split_slash path) = true) as Hyes; [|congruence].
      apply existsb_exists. exists name. split; [done|]. by apply Nat.ltb_lt. }
    cbn [andb].
    destruct (Nat.leb_spec 4096 (utf8_length path));
      destruct (Nat.ltb_spec (utf8_length path) 4096); (done || lia).
Qed.


(** *** The call *)

(** [load_data] creates the directory, then stops on the exception of
    [page_target], or on that of [open], or goes on to write the file
    [page_target] designates, with the chunks [json.dump] gets out. *)
Lemma load_data_eq (env : Env) (data : json) (st : State) :
  load_data env data st =
    let folder := dated_folder env st in
    let made := dirs st ∪ list_to_set (parents folder) ∪ {[folder]} in
    let stopped e :=
      ({| dirs := made; files := files st;
          trace := trace st ++ [Mkdir folder] |}, inl e) in
    match page_target data with
    | inl e => stopped e
    | inr (results, last_id) =>
        let file := page_file env st last_id in
        match open_error file with
        | Some e => stopped e
        | None =>
            let chunks :=
              Json.iterencode (int_max_str_digits env) results
                (recursion_room env) in
            ({| dirs := made;
                files := <[file := chunks.1]> (files st);
                trace := trace st ++ [Mkdir folder; WriteFile file chunks.1] |},
             match chunks.2 with
             | None => inr tt
             | Some e => inl e
             end)
        end
    end.
Proof.
  unfold load_data, page_target. rewrite folder_path_eq.
  unfold bind, mkdir_parents, lift, raise, open_w_json_dump. cbn [fst snd].
  destruct (Py.get data "results") as [e|results]; [done|].
  destruct (negb (Py.truthy results)); [done|].
  destruct (Py.index_last results) as [e|last_pokemon]; [done|].
  destruct (Py.get last_pokemon "url") as [e|url]; [done|].
  destruct (Py.split url) as [e|segments]; [done|].
  destruct (Py.index_second_last segments) as [e|last_id]; [done|].
  cbn [trace dirs files]. rewrite file_path_eq.
  destruct (open_error (page_file env st last_id)); [done|].
  destruct (Json.iterencode _ results (recursion_room env)) as [content fin].
  cbn [fst snd trace dirs files]. by rewrite <- (app_assoc (trace st)).
Qed.

Lemma page_target_page (data : json) (items : list json) (last_id : string) :
  is_page data items last_id -> page_target data = inr (JList items, last_id).
Proof.
  intros [fields items' item_fields url id Hres Hlast Hurl Hlen Hid].
  unfold page_target, Py.get. rewrite Hres.
  assert (Py.truthy (JList items') = true) as ->
    by (by destruct items').
  cbn [negb Py.index_last]. rewrite Hlast, Hurl. cbn [Py.split].
  unfold Py.index_second_last.
  apply Nat.leb_le in Hlen. by rewrite Hlen, Hid.
Qed.

Lemma page_target_is_page (data results : json) (last_id : string) :
  page_target data = inr (results, last_id) ->
  exists items, results = JList items /\ is_page data items last_id.
Proof.
  unfold page_target. destruct data as [| | | | |?|fields]; try done.
  cbn [Py.get]. destruct (Py.assoc "results" fields) as [res|] eqn:Hres;
    [|done].
  destruct (negb (Py.truthy res)); [done|].
  destruct res as [| | | |s|items|?]; try done; cbn [Py.index_last].
  - destruct (Py.last_char s); done.
  - destruct (last items) as [item|] eqn:Hlast; [|done].
    destruct item as [| | | | |?|item_fields]; try done. cbn [Py.get].
    destruct (Py.assoc "url" item_fields) as [url|] eqn:Hurl; [|done].
    destruct url as [| | | |url| |]; try done.
    cbn [Py.split]. unfold Py.index_second_last.
    destruct (2 <=? length (Py.split_slash url))%nat eqn:Hlen; [|done].
    destruct (Py.split_slash url !! _) as [id|] eqn:Hid; [|done].
    intros [= <- <-]. exists items. split; [done|].
    apply Nat.leb_le in Hlen. by econstructor.
Qed.



Lemma new_events_app (st st' : State) (evs : list event) :
  trace st' = (trace st ++ evs)%list -> new_events st st' = evs.
Proof. unfold new_events. intros ->. apply drop_app_length. Qed.


(** A page that is [persistable] is written in full. *)
Lemma load_data_page (env : Env) (data : json) (items : list json)
    (last_id : string) (st : State) :
  is_page data items last_id ->
  openable (page_file env st last_id) = true ->
  dumpable env (JList items) = true ->
  load_data env data st =
    ({| dirs := dirs st ∪ list_to_set (parents (dated_folder env st))
                       ∪ {[dated_folder env st]};
        files := <[page_file env st last_id := Json.dumps (JList items)]>
                   (files st);
        trace := trace st ++
                   [Mkdir (dated_folder env st);
                    WriteFile (page_file env st last_id)
                      (Json.dumps (JList items))] |},
     inr tt).
Proof.
  intros Hpage Hopen%open_error_openable Hroom.
  rewrite load_data_eq. cbv zeta.
  rewrite (page_target_page _ _ _ Hpage), Hopen.
  by rewrite (dump_dumpable _ _ Hroom).
Qed.


(** [load_data] returns exactly on the pages that are [persistable]. *)
Lemma load_data_returns_iff (env : Env) (data : json) (st : State) :
  (load_data env data st).2 = inr tt <-> persistable env st data.
Proof.
  split.
  - rewrite load_data_eq. cbv zeta.
    destruct (page_target data) as [e|[results last_id]] eqn:Htarget; [done|].
    destruct (page_target_is_page _ _ _ Htarget) as (items & -> & Hpage).
    destruct (open_error _) eqn:Hopen; [done|]. cbn [snd].
    destruct (Json.iterencode _ _ _).2 eqn:Hfin; [done|]. intros _.
    exists items last_id; [done|by apply open_error_openable|].
    by apply dump_finished.
  - intros [items last_id Hpage Hopen Hroom].
    by rewrite (load_data_page _ _ _ _ _ Hpage Hopen Hroom).
Qed.




(** C5, as stated, fails on pages whose last item has a [url] of five
    segments: with the character of code 0 in the fourth, [open] refuses
    the name and no file is written; with lists nested 1200 deep in another
    item, [json.dump] stops on [RecursionError] and the file holds 990
    opening brackets, not the results. *)
Lemma load_data_unopenable_counterexample :
  (storable Sample.page_nul = true
   /\ (load_data Sample.env Sample.page_nul Sample.fresh).2
        = inl (Exn.Raise Exn.ValueError ["embedded null byte"])
   /\ writes_file Sample.fresh
        (load_data Sample.env Sample.page_nul Sample.fresh).1 = false
   /\ files (load_data Sample.env Sample.page_nul Sample.fresh).1 = ∅)
  /\ (storable Sample.page_deep = true
      /\ (load_data Sample.env Sample.page_deep Sample.fresh).2
           = inl Json.recursion_error
      /\ dom (files (load_data Sample.env Sample.page_deep Sample.fresh).1)
         = {[ "/srv/poke/data/2026-11-03/7.json" ]}
      /\ files (load_data Sample.env Sample.page_deep Sample.fresh).1
           !! "/srv/poke/data/2026-11-03/7.json"
         = Some (String.concat EmptyString (replicate 990 "["))).
Proof. repeat apply conj; vm_compute; reflexivity. Qed.




(** C6, as stated, fails on two pages whose last items give the same
    identifier: when it holds the character of code 0, neither call can
    open the file, and no file is left at that path; when both pages hold
    lists nested 1200 deep, both calls stop on [RecursionError] and the file
    holds 990 opening brackets, which is neither page's results. *)
Lemma load_data_last_write_counterexample :
  (let st1 := (load_data Sample.env Sample.page_nul Sample.fresh).1 in
   let st2 := (load_data Sample.env Sample.page_nul st1).1 in
   storable Sample.page_nul = true
   /\ (load_data Sample.env Sample.page_nul st1).2
        = inl (Exn.Raise Exn.ValueError ["embedded null byte"])
   /\ files st2 = ∅)
  /\ (let st1 := (load_data Sample.env Sample.page_deep Sample.fresh).1 in
      let st2 := (load_data Sample.env Sample.page_deep st1).1 in
      storable Sample.page_deep = true
      /\ (load_data Sample.env Sample.page_deep st1).2
           = inl Json.recursion_error
      /\ dom (files st2) = {[ "/srv/poke/data/2026-11-03/7.json" ]}
      /\ files st2 !! "/srv/poke/data/2026-11-03/7.json"
         = Some (String.concat EmptyString (replicate 990 "["))).
Proof. repeat apply conj; vm_compute; reflexivity. Qed.




(** C9: non-empty [results] whose last item has no [url], or a [url]
    with fewer than two segments: [load_data] lets an [AttributeError]
    (no [url]) or an [IndexError] (short [url]) escape, neither of which
    is one of the typed errors, and no file is written. *)
Theorem load_data_malformed_item (env : Env) (fields : list (string * json))
    (items : list json) (item : json) (st : State) :
  Py.assoc "results" fields = Some (JList items) ->
  last items = Some item ->
  malformed_item item ->
  exists e,
    (load_data env (JDict fields) st).2 = inl e
    /\ (Exn.cls e = Exn.AttributeError \/ Exn.cls e = Exn.IndexError)
    /\ in_taxonomy e = false
    /\ writes_file st (load_data env (JDict fields) st).1 = false
    /\ files (load_data env (JDict fields) st).1 = files st.
Proof.
  intros Hres Hlast Hitem. rewrite load_data_eq. cbv zeta.
  assert (exists e, page_target (JDict fields) = inl e
                    /\ (Exn.cls e = Exn.AttributeError
                        \/ Exn.cls e = Exn.IndexError)) as (e & -> & Hcls).
  { unfold page_target. cbn [Py.get]. rewrite Hres.
    assert (Py.truthy (JList items) = true) as -> by (by destruct items).
    cbn [negb Py.index_last]. rewrite Hlast.
    destruct Hitem as [item_fields Hurl|item_fields url Hurl Hlen];
      cbn [Py.get]; rewrite Hurl; cbn [Py.split].
    - eexists. split; [reflexivity|]. by left.
    - unfold Py.index_second_last.
      apply Nat.leb_gt in Hlen. rewrite Hlen.
      eexists. split; [reflexivity|]. by right. }
  exists e. cbn [fst snd files]. unfold writes_file.
  erewrite new_events_app by reflexivity.
  repeat split; try done.
  unfold in_taxonomy, Exn.isinstance. by destruct Hcls as [-> | ->].
Qed.

(** A result with no [url], and one whose [url] is ["seven"]. *)
Lemma load_data_malformed_item_witness :
  (exists e,
     (load_data Sample.env Sample.page_no_url Sample.fresh).2 = inl e
     /\ (Exn.cls e = Exn.AttributeError \/ Exn.cls e = Exn.IndexError)
     /\ in_taxonomy e = false
     /\ writes_file Sample.fresh
          (load_data Sample.env Sample.page_no_url Sample.fresh).1 = false
     /\ files (load_data Sample.env Sample.page_no_url Sample.fresh).1
        = files Sample.fresh)
  /\ (exists e,
        (load_data Sample.env Sample.page_flat_url Sample.fresh).2 = inl e
        /\ (Exn.cls e = Exn.AttributeError \/ Exn.cls e = Exn.IndexError)
        /\ in_taxonomy e = false
        /\ writes_file Sample.fresh
             (load_data Sample.env Sample.page_flat_url Sample.fresh).1 = false
        /\ files (load_data Sample.env Sample.page_flat_url Sample.fresh).1
           = files Sample.fresh).
Proof.
  split.
  - apply (load_data_malformed_item Sample.env _
             [JDict [("name", JStr "bulbasaur")]]
             (JDict [("name", JStr "bulbasaur")]) Sample.fresh);
      [reflexivity | reflexivity | by apply malformed_no_url].
  - apply (load_data_malformed_item Sample.env _
             [JDict [("url", JStr "seven")]]
             (JDict [("url", JStr "seven")]) Sample.fresh);
      [reflexivity | reflexivity |].
    apply (malformed_short_url _ "seven"); [reflexivity | simpl; lia].
Defined.

(** C10: whenever [load_data] raises the [ValueError] of missing or empty
    results, the call has created the dated directory first: the [mkdir] is
    the one event of the call, the directory exists afterwards, and a
    directory that was not there before makes the filesystem differ. *)
Theorem load_data_mkdir_before_check (env : Env) (data : json)
    (st st' : State) :
  load_data env data st =
    (st', inl (Exn.Raise Exn.ValueError
                 ["'results' key is missing or empty in the provided data."])) ->
  new_events st st' = [Mkdir (dated_folder env st)]
  /\ dated_folder env st ∈ dirs st'
  /\ (dated_folder env st ∉ dirs st -> dirs st' <> dirs st).
Proof.
  rewrite load_data_eq. cbv zeta.
  destruct (page_target data) as [e|[results last_id]].
  2: destruct (open_error _) as [e|];
       [|destruct (Json.iterencode _ _ _).2 as [e|] eqn:Hstop; [|done];
         intros [= _ ->];
         destruct (dump_stopped _ _ _ Hstop) as (_ & Herr & _);
         by destruct (dump_error_class env _ Herr) as [_ []]].
  all: intros [= <- _]; cbn [dirs];
    (split; [by apply new_events_app|]);
    (split; [apply elem_of_union_r; by apply elem_of_singleton|]).
  all: intros Hfresh Hsame; apply Hfresh; rewrite <- Hsame;
    apply elem_of_union_r; by apply elem_of_singleton.
Qed.

(** On a fresh filesystem, an empty page leaves [data/2026-11-03]. *)
Lemma load_data_mkdir_before_check_witness :
  new_events Sample.fresh
    (load_data Sample.env Sample.page_empty Sample.fresh).1
    = [Mkdir "/srv/poke/data/2026-11-03"]
  /\ "/srv/poke/data/2026-11-03"
       ∈ dirs (load_data Sample.env Sample.page_empty Sample.fresh).1
  /\ ("/srv/poke/data/2026-11-03" ∉ dirs Sample.fresh ->
      dirs (load_data Sample.env Sample.page_empty Sample.fresh).1
      <> dirs Sample.fresh).
Proof.
  apply (load_data_mkdir_before_check Sample.env Sample.page_empty
           Sample.fresh). reflexivity.
Defined.

(** ** The driver loop *)

(** [get_data] touches neither files nor directories, and sends at most
    one request: none when the first-page URL cannot be resolved. *)
Lemma get_data_effect (env : Env) (api_url : json) (st st1 : State)
    (r : result json) :
  get_data env api_url st = (st1, r) ->
  files st1 = files st /\ dirs st1 = dirs st
  /\ ((st1 = st /\ exists e, r = inl e)
      \/ exists url, requested env api_url url
                     /\ st1 = emit (HttpGet url) st).
Proof.
  unfold get_data, bind, requests_get, lift, ret, raise.
  destruct api_url.
  1: destruct (get_api_url env 50) as [e|s] eqn:Hurl;
       [intros [= <- <-]; eauto 6|].
  all: match goal with
       | |- context [http ?env' (trace ?st') ?u] =>
           destruct (http env' (trace st') u) as [e|resp];
             [|destruct (negb _)]; intros [= <- <-];
             (repeat split; right; exists u; split; [by constructor|done])
       end.
Qed.

(** An argument other than [None] is the URL requested. *)
Lemma get_data_given (env : Env) (api_url : json) (st : State) :
  api_url <> JNull ->
  (get_data env api_url st).1 = emit (HttpGet api_url) st.
Proof.
  intros Hne.
  destruct (get_data env api_url st) as [st1 r] eqn:Hget.
  unfold get_data, bind, requests_get, lift, ret, raise in Hget.
  destruct api_url; [done|..];
    match type of Hget with
    | context [http ?env' (trace ?st') ?u] =>
        destruct (http env' (trace st') u) as [e|resp];
          [|destruct (negb _)]; by injection Hget as <- <-
    end.
Qed.

Lemma load_data_ok_dict (env : Env) (data : json) (st st' : State) :
  load_data env data st = (st', inr tt) ->
  exists fields, data = JDict fields.
Proof.
  intros Hload.
  destruct (proj1 (load_data_returns_iff env data st)) as [items id Hp _ _].
  { by rewrite Hload. }
  destruct Hp. eauto.
Qed.

(** [load_data] sends nothing, only adds to the trace, and has written a
    file when it returns. *)
Lemma load_data_effect (env : Env) (data : json) (st st' : State)
    (r : result unit) :
  load_data env data st = (st', r) ->
  (length (trace st) <= length (trace st'))%nat
  /\ requests_sent st st' = 0%nat
  /\ trace st' = (trace st ++ new_events st st')%list
  /\ (r = inr tt -> writes_file st st' = true).
Proof.
  rewrite load_data_eq. cbv zeta.
  destruct (page_target data) as [e|[results last_id]].
  2: destruct (open_error _) as [e|].
  all: intros [= <- <-];
    unfold requests_sent, writes_file;
    (erewrite new_events_app by reflexivity);
    cbn [trace]; rewrite length_app; (repeat split; [lia|done..]).
Qed.

(** Counting over a trace that is extended step by step. *)
Lemma new_events_refl (st : State) : new_events st st = [].
Proof. unfold new_events. apply drop_all. Qed.

Lemma new_events_trans (st st1 st2 : State) :
  (length (trace st) <= length (trace st1))%nat ->
  trace st2 = (trace st1 ++ new_events st1 st2)%list ->
  new_events st st2 = (new_events st st1 ++ new_events st1 st2)%list.
Proof.
  intros Hlen Htr. unfold new_events at 1. rewrite Htr.
  by rewrite drop_app_le.
Qed.

Lemma requests_sent_emit (st st' : State) (ev : event) :
  (length (trace st) <= length (trace st'))%nat ->
  requests_sent st (emit ev st')
  = (requests_sent st st' + if is_http_get ev then 1 else 0)%nat.
Proof.
  intros Hlen. unfold requests_sent, new_events, emit. cbn [trace].
  rewrite drop_app_le by done. rewrite filter_app, length_app.
  f_equal. by destruct ev.
Qed.

Lemma writes_file_emit (st st' : State) (ev : event) :
  (length (trace st) <= length (trace st'))%nat ->
  writes_file st (emit ev st') = writes_file st st' || is_write ev.
Proof.
  intros Hlen. unfold writes_file, new_events, emit. cbn [trace].
  rewrite drop_app_le by done. rewrite existsb_app. cbn. by rewrite orb_false_r.
Qed.

(** The fetch of a pass: at most one request, exactly one when it
    returns, and no file. *)
Lemma get_data_sends (env : Env) (api_url : json) (st st1 : State)
    (r : result json) :
  get_data env api_url st = (st1, r) ->
  (length (trace st) <= length (trace st1))%nat
  /\ (requests_sent st st1 <= 1)%nat
  /\ (forall data, r = inr data -> requests_sent st st1 = 1%nat)
  /\ writes_file st st1 = false.
Proof.
  intros Hget.
  destruct (get_data_effect _ _ _ _ _ Hget)
    as (_ & _ & [[-> [e ->]]|(url & _ & ->)]).
  - unfold requests_sent, writes_file. rewrite new_events_refl. cbn.
    repeat split; (done || lia).
  - rewrite requests_sent_emit, writes_file_emit by done.
    unfold requests_sent, writes_file. rewrite new_events_refl.
    cbn. rewrite length_app. cbn. repeat split; lia.
Qed.

(** A fetch followed by a persist: the requests are those of the
    fetch. *)
Lemma fetch_persist_sends (env : Env) (url data : json) (st st1 st2 : State)
    (r : result unit) :
  get_data env url st = (st1, inr data) ->
  load_data env data st1 = (st2, r) ->
  (length (trace st) <= length (trace st2))%nat
  /\ requests_sent st st2 = 1%nat.
Proof.
  intros Hget Hload.
  destruct (get_data_sends _ _ _ _ _ Hget) as (Hlen1 & _ & Hsent1 & _).
  destruct (load_data_effect _ _ _ _ _ Hload) as (Hlen2 & Hsent2 & Htr & _).
  split; [lia|].
  unfold requests_sent in *.
  rewrite (new_events_trans st st1 st2) by done.
  rewrite filter_app, length_app, Hsent2, (Hsent1 data) by done. lia.
Qed.

(** *** One pass *)

Lemma main_body_fails (env : Env) (url : json) (st st_err : State) (e : exn)
    (in_fetch : bool) :
  pass_fails env url st st_err e in_fetch ->
  main_body env url st = (emit (error_logged e) st_err, inr Break).
Proof.
  intros [st1 e' Hget|st1 data st2 e' Hget Hload];
    unfold main_body, main_try, bind; rewrite Hget; [|rewrite Hload];
    by rewrite isinstance_Exception.
Qed.

Lemma main_body_persisted (env : Env) (url data : json) (st st1 st2 : State) :
  get_data env url st = (st1, inr data) ->
  load_data env data st1 = (st2, inr tt) ->
  exists next_url,
    Py.get data "next" = inr next_url
    /\ main_body env url st =
         if Py.truthy next_url
         then (emit (LogInfo [Text "Fetching next page: "; StrOf next_url]) st2,
               inr (Continue next_url))
         else (emit completion_logged st2, inr Break).
Proof.
  intros Hget Hload.
  destruct (load_data_ok_dict _ _ _ _ Hload) as [fields ->].
  eexists. split; [reflexivity|].
  unfold main_body, main_try, bind. rewrite Hget, Hload.
  unfold lift. cbn [Py.get].
  by destruct (Py.truthy _).
Qed.

(** [except Exception] lets nothing through: a pass never raises. *)
Lemma main_body_no_raise (env : Env) (url : json) (st st' : State) (e : exn) :
  main_body env url st <> (st', inl e).
Proof.
  unfold main_body. destruct (main_try env url st) as [st1 [e1|f]]; [|done].
  by rewrite isinstance_Exception.
Qed.

(** *** The loop *)

(** The two presentations of the loop agree: a result of the bounded
    loop is a run, and a run is the result of the bounded loop for every
    bound that is large enough. *)
Lemma main_loop_run (env : Env) (fuel : nat) (url : json) (st : State)
    (r : State * result unit) :
  main_loop env fuel url st = Some r -> main_run env url st r.
Proof.
  revert url st. induction fuel as [|fuel IH]; intros url st; [done|].
  cbn [main_loop].
  destruct (main_body env url st) as [st' [e|[url'|]]] eqn:Hbody.
  - intros [= <-]. by apply run_raise.
  - intros Hrest. eapply run_continue; eauto.
  - intros [= <-]. by apply run_break.
Qed.

Lemma main_run_loop (env : Env) (url : json) (st : State)
    (r : State * result unit) :
  main_run env url st r ->
  exists fuel, forall fuel', (fuel <= fuel')%nat ->
                             main_loop env fuel' url st = Some r.
Proof.
  induction 1 as [url st st' Hbody|url st st' e Hbody
                 |url st st' url' r Hbody _ [fuel IH]].
  - exists 1%nat. intros [|fuel'] ?; [lia|]. cbn [main_loop]. by rewrite Hbody.
  - exists 1%nat. intros [|fuel'] ?; [lia|]. cbn [main_loop]. by rewrite Hbody.
  - exists (S fuel). intros [|fuel'] ?; [lia|]. cbn [main_loop].
    rewrite Hbody. apply IH. lia.
Qed.

(** A run has one outcome. *)
Lemma main_run_det (env : Env) (url : json) (st : State)
    (r r' : State * result unit) :
  main_run env url st r -> main_run env url st r' -> r = r'.
Proof.
  intros Hrun. revert r'.
  induction Hrun as [url st st' Hbody|url st st' e Hbody
                    |url st st' url' r Hbody _ IH];
    intros r' Hrun'; inversion Hrun'; subst; try congruence.
  apply IH. congruence.
Qed.

(** The loop never lets an exception out. *)
Lemma main_run_returns (env : Env) (url : json) (st st' : State)
    (r : result unit) :
  main_run env url st (st', r) -> r = inr tt.
Proof.
  remember (st', r) as out eqn:Hout. intros Hrun. revert st' r Hout.
  induction Hrun as [| url st st1 e Hbody |]; intros st2 r2 Hout.
  - by injection Hout as _ <-.
  - by destruct (main_body_no_raise _ _ _ _ _ Hbody).
  - eauto.
Qed.

(** What a pass reached by the loop leads to is what the loop leads to. *)
Lemma reaches_run (env : Env) (url0 url : json) (st0 st : State)
    (r : State * result unit) :
  reaches env url0 st0 url st -> main_run env url st r ->
  main_run env url0 st0 r.
Proof.
  induction 1 as [|url0 st0 url1 st1 url st Hbody _ IH]; [done|].
  intros Hrun. eapply run_continue; eauto.
Qed.

Lemma reaches_snoc (env : Env) (url0 url url' : json) (st0 st st' : State) :
  reaches env url0 st0 url st ->
  main_body env url st = (st', inr (Continue url')) ->
  reaches env url0 st0 url' st'.
Proof.
  induction 1 as [url st|url0 st0 url1 st1 url st Hbody _ IH]; intros Hnext.
  - eapply reaches_next; [done|apply reaches_here].
  - eapply reaches_next; [done|by apply IH].
Qed.

(** C7: in any run of [main], when the fetch or the persist of a pass
    raises, the loop logs that error and the run is over: this pass is the
    last whatever number of passes was left, the error message is the last
    event, the pass has sent at most one request (none repeated, none
    after), and when it is the fetch that failed the files are as the pass
    found them. *)
Theorem main_stops_on_error (env : Env) (st0 : State) (url : json)
    (st st_err : State) (e : exn) (in_fetch : bool) :
  reaches env JNull st0 url st ->
  pass_fails env url st st_err e in_fetch ->
  let final := emit (error_logged e) st_err in
  main_run env JNull st0 (final, inr tt)
  /\ (exists fuel0, forall fuel, (fuel0 <= fuel)%nat ->
                                 main env fuel st0 = Some (final, inr tt))
  /\ (forall fuel, main_loop env (S fuel) url st = Some (final, inr tt))
  /\ last (trace final) = Some (error_logged e)
  /\ (requests_sent st final <= 1)%nat
  /\ (in_fetch = true ->
      files final = files st /\ writes_file st final = false).
Proof.
  intros Hreach Hfails. cbv zeta.
  pose proof (main_body_fails _ _ _ _ _ _ Hfails) as Hbody.
  assert (main_run env JNull st0 (emit (error_logged e) st_err, inr tt))
    as Hrun by (eapply reaches_run; [done|by apply run_break]).
  split; [done|]. split; [by apply main_run_loop|].
  split; [intros fuel; cbn [main_loop]; by rewrite Hbody|].
  split; [unfold emit; cbn [trace]; apply last_snoc|].
  destruct Hfails as [st1 e' Hget|st1 data st2 e' Hget Hload].
  - destruct (get_data_sends _ _ _ _ _ Hget) as (Hlen & Hsent & _ & Hwr).
    destruct (get_data_effect _ _ _ _ _ Hget) as (Hfiles & _).
    rewrite requests_sent_emit, writes_file_emit by done.
    cbn. rewrite Hwr. split; [lia|]. by intros _.
  - destruct (fetch_persist_sends _ _ _ _ _ _ _ Hget Hload) as [Hlen Hsent].
    rewrite requests_sent_emit by done. cbn. split; [lia|done].
Qed.

(** The second page of a listing answered with status 500: the run ends
    on the logged error, with the first page's file only. *)
Lemma main_stops_on_error_witness :
  let st1 := (main_body Sample.env_flaky JNull Sample.fresh).1 in
  let final :=
    emit (error_logged (http_error 500))
      (emit (HttpGet (JStr "https://api.test/flaky/?page=2")) st1) in
  main_run Sample.env_flaky JNull Sample.fresh (final, inr tt)
  /\ trace final =
       [HttpGet (JStr "https://api.test/flaky/?limit=50");
        Mkdir "/srv/poke/data/2026-11-03";
        WriteFile "/srv/poke/data/2026-11-03/9.json"
          (Json.dumps
             (JList [JDict [("url", JStr "https://api.test/flaky/9/")]]));
        LogInfo [Text "Fetching next page: ";
                 StrOf (JStr "https://api.test/flaky/?page=2")];
        HttpGet (JStr "https://api.test/flaky/?page=2");
        error_logged (http_error 500)].
Proof.
  split; [|reflexivity].
  refine (proj1 (main_stops_on_error Sample.env_flaky Sample.fresh
                   (JStr "https://api.test/flaky/?page=2")
                   (main_body Sample.env_flaky JNull Sample.fresh).1
                   (emit (HttpGet (JStr "https://api.test/flaky/?page=2"))
                      (main_body Sample.env_flaky JNull Sample.fresh).1)
                   (http_error 500) true _ _)).
  - eapply reaches_next; [reflexivity|apply reaches_here].
  - apply fetch_fails. reflexivity.
Defined.

(** C8, as stated, fails on a last page that is empty: its [next] is
    null, and the loop neither persists it nor logs completion; it logs
    the [ValueError] of [load_data] and stops. *)
Lemma main_empty_last_page_counterexample :
  http Sample.env [] (JStr "https://api.test/items/?page=3")
    = inr (Response 200 (Some Sample.page_empty))
  /\ Py.get Sample.page_empty "next" = inr JNull
  /\ option_map (fun out => (trace out.1, files out.1))
       (main_loop Sample.env 2 (JStr "https://api.test/items/?page=3")
          Sample.fresh)
     = Some ([HttpGet (JStr "https://api.test/items/?page=3");
              Mkdir "/srv/poke/data/2026-11-03";
              error_logged
                (Exn.Raise Exn.ValueError
                   ["'results' key is missing or empty in the provided data."])],
             ∅).
Proof. by vm_compute. Qed.

(** C8 (amended): in any run of [main], take a pass whose fetch returns a
    page and whose persist returns: the page has been written.  If its
    [next] is absent, null or otherwise false, the loop logs completion and
    the run is over, this pass having sent its one request.  If [next] is a
    non-empty string (or another true value), the loop goes on: the next
    pass is entered with that value, and the first thing it does is to
    request exactly it. *)
Theorem main_follows_next (env : Env) (st0 : State)
    (url data next_url : json) (st st1 st2 : State) :
  reaches env JNull st0 url st ->
  get_data env url st = (st1, inr data) ->
  load_data env data st1 = (st2, inr tt) ->
  Py.get data "next" = inr next_url ->
  writes_file st1 st2 = true
  /\ (Py.truthy next_url = false ->
      let final := emit completion_logged st2 in
      main_run env JNull st0 (final, inr tt)
      /\ (forall fuel, main_loop env (S fuel) url st = Some (final, inr tt))
      /\ last (trace final) = Some completion_logged
      /\ requests_sent st final = 1%nat)
  /\ (Py.truthy next_url = true ->
      let st3 := emit (LogInfo [Text "Fetching next page: "; StrOf next_url])
                   st2 in
      reaches env JNull st0 next_url st3
      /\ (forall fuel, main_loop env (S fuel) url st
                       = main_loop env fuel next_url st3)
      /\ requests_sent st st3 = 1%nat
      /\ (get_data env next_url st3).1 = emit (HttpGet next_url) st3).
Proof.
  intros Hreach Hget Hload Hnext.
  destruct (main_body_persisted _ _ _ _ _ _ Hget Hload)
    as (next_url' & Hnext' & Hbody).
  assert (next_url' = next_url) as -> by congruence.
  destruct (load_data_effect _ _ _ _ _ Hload) as (_ & _ & _ & Hwr).
  destruct (fetch_persist_sends _ _ _ _ _ _ _ Hget Hload) as [Hlen Hsent].
  split; [by apply Hwr|]. split; intros Htruth; cbv zeta; rewrite Htruth in Hbody.
  - split; [eapply reaches_run; [done|by apply run_break]|].
    split; [intros fuel; cbn [main_loop]; by rewrite Hbody|].
    split; [unfold emit; cbn [trace]; apply last_snoc|].
    rewrite requests_sent_emit by done. cbn. lia.
  - split; [by eapply reaches_snoc|].
    split; [intros fuel; cbn [main_loop]; by rewrite Hbody|].
    split; [rewrite requests_sent_emit by done; cbn; lia|].
    apply get_data_given. intros ->. done.
Qed.

(** The sample listing: its first page sends the loop to the second, and
    the second, whose [next] is null, ends the run on the completion
    message. *)
Lemma main_follows_next_witness :
  let st3 := (main_body Sample.env JNull Sample.fresh).1 in
  let final := (main_body Sample.env (JStr "https://api.test/items/?page=2")
                  st3).1 in
  main_run Sample.env JNull Sample.fresh (final, inr tt)
  /\ trace final =
       [HttpGet (JStr "https://api.test/items/?limit=50");
        Mkdir "/srv/poke/data/2026-11-03";
        WriteFile "/srv/poke/data/2026-11-03/7.json"
          (Json.dumps
             (JList [JDict [("name", JStr "ivysaur");
                            ("url", JStr "https://api.test/items/7/")]]));
        LogInfo [Text "Fetching next page: ";
                 StrOf (JStr "https://api.test/items/?page=2")];
        HttpGet (JStr "https://api.test/items/?page=2");
        Mkdir "/srv/poke/data/2026-11-03";
        WriteFile "/srv/poke/data/2026-11-03/42.json"
          (Json.dumps
             (JList [JDict [("url", JStr "https://api.test/items/42/")]]));
        completion_logged].
Proof.
  split; [|reflexivity].
  refine (proj1 (proj1 (proj2
            (main_follows_next Sample.env Sample.fresh
               (JStr "https://api.test/items/?page=2") Sample.page42 JNull
               (main_body Sample.env JNull Sample.fresh).1
               (get_data Sample.env (JStr "https://api.test/items/?page=2")
                  (main_body Sample.env JNull Sample.fresh).1).1
               (load_data Sample.env Sample.page42
                  (get_data Sample.env (JStr "https://api.test/items/?page=2")
                     (main_body Sample.env JNull Sample.fresh).1).1).1
               _ eq_refl eq_refl eq_refl)) eq_refl)).
  eapply reaches_next; [reflexivity|apply reaches_here].
Defined.

(** Scenarios 1 and 2 in one run: two pages, two files, two requests. *)
Example main_two_pages :
  option_map (fun out => (map_to_list (files out.1), out.2,
                          requests_sent Sample.fresh out.1))
    (main Sample.env 2 Sample.fresh)
  = Some ([("/srv/poke/data/2026-11-03/7.json",
            Json.dumps
              (JList [JDict [("name", JStr "ivysaur");
                             ("url", JStr "https://api.test/items/7/")]]));
           ("/srv/poke/data/2026-11-03/42.json",
            Json.dumps
              (JList [JDict [("url", JStr "https://api.test/items/42/")]]))],
          inr tt, 2%nat).
Proof. by vm_compute. Qed.

(** The text [json.dump] writes for a one-item page. *)
Example dumps_page7_results :
  Json.dumps (JList [JDict [("url", JStr "https://api.test/items/7/")]])
  = "[{" ++ Json.quote ++ "url" ++ Json.quote ++ ": " ++ Json.quote
      ++ "https://api.test/items/7/" ++ Json.quote ++ "}]".
Proof. reflexivity. Qed.

(** * Further properties *)

(** ** The configuration reader, continued *)













(** ** The page fetcher, continued *)

(** [get_data], case by case. *)
Lemma get_data_cases (env : Env) (api_url : json) (st : State) :
  (exists e, api_url = JNull /\ get_api_url env 50 = inl e
             /\ get_data env api_url st = (st, inl e))
  \/ (exists url, requested env api_url url
        /\ get_data env api_url st =
             (emit (HttpGet url) st,
              match http env (trace st) url with
              | inl e => inl e
              | inr r => if negb (status_code r =? 200)
                         then inl (http_error (status_code r))
                         else response_json r
              end)).
Proof.
  unfold get_data, bind, requests_get, lift, ret, raise.
  destruct api_url.
  1: destruct (get_api_url env 50) as [e|s] eqn:Hurl; [left; eauto|].
  all: right;
    match goal with
    | |- context [http ?env' (trace ?st') ?u] =>
        exists u; split; [by constructor|];
        destruct (http env' (trace st') u) as [e|resp];
          [done|by destruct (negb _)]
    end.
Qed.

(** X4: [get_data] leaves files and directories as they are and sends at
    most one request; it sends none exactly when it was given no URL and
    the first-page URL cannot be had from the configuration, and then it
    fails with the configuration's error, the state untouched. *)
Theorem get_data_requests (env : Env) (api_url : json) (st : State) :
  let out := get_data env api_url st in
  files out.1 = files st
  /\ dirs out.1 = dirs st
  /\ (requests_sent st out.1 <= 1)%nat
  /\ (requests_sent st out.1 = 0%nat
      <-> api_url = JNull /\ exists e, get_api_url env 50 = inl e)
  /\ (forall e, api_url = JNull -> get_api_url env 50 = inl e ->
                out = (st, inl e)).
Proof.
  cbv zeta.
  destruct (get_data_cases env api_url st)
    as [(e & -> & Hurl & ->)|(url & Hreq & ->)]; cbn [fst snd].
  - unfold requests_sent. rewrite new_events_refl. cbn.
    repeat split; eauto with lia. intros e' _ He'. congruence.
  - assert (forall e, api_url = JNull -> get_api_url env 50 = inl e -> False)
      as Hno by (intros e -> He; inversion Hreq; congruence).
    rewrite requests_sent_emit by done.
    unfold requests_sent. rewrite new_events_refl. cbn.
    split; [done|]. split; [done|]. split; [lia|]. split.
    + split; [lia|]. intros (Hnull & e & He). by destruct (Hno e).
    + intros e Hnull He. by destruct (Hno e).
Qed.

(** X5: whatever [get_data] returns is the decoded body of a response of
    status 200 to the one request it sent, for the URL it was given or the
    first-page URL. *)
Theorem get_data_returns_body (env : Env) (api_url data : json)
    (st st1 : State) :
  get_data env api_url st = (st1, inr data) ->
  exists url r,
    requested env api_url url
    /\ st1 = emit (HttpGet url) st
    /\ http env (trace st) url = inr r
    /\ status_code r = 200
    /\ body r = Some data.
Proof.
  destruct (get_data_cases env api_url st)
    as [(e & -> & Hurl & ->)|(url & Hreq & ->)]; [done|].
  destruct (http env (trace st) url) as [e|r] eqn:Hhttp; [done|].
  destruct (status_code r =? 200) eqn:Hstatus; [|done].
  cbn [negb]. unfold response_json.
  destruct (body r) as [v|] eqn:Hbody; [|done].
  intros [= <- <-]. exists url, r. apply Z.eqb_eq in Hstatus. eauto 6.
Qed.

(** With no argument, on the sample server: the first page. *)
Lemma get_data_returns_body_witness :
  exists url r,
    requested Sample.env JNull url
    /\ emit (HttpGet (JStr "https://api.test/items/?limit=50")) Sample.fresh
       = emit (HttpGet url) Sample.fresh
    /\ http Sample.env (trace Sample.fresh) url = inr r
    /\ status_code r = 200
    /\ body r = Some Sample.page7.
Proof.
  apply (get_data_returns_body Sample.env JNull Sample.page7 Sample.fresh).
  reflexivity.
Defined.

(** ** The page writer, continued *)


Lemma page_file_same_day (env : Env) (st st' : State) (id : string) :
  now env (trace st') = now env (trace st) ->
  page_file env st' id = page_file env st id
  /\ dated_folder env st' = dated_folder env st.
Proof. unfold page_file, dated_folder. by intros ->. Qed.





Lemma union_twice (A B C : gset string) : A ∪ B ∪ C ∪ B ∪ C = A ∪ B ∪ C.
Proof.
  apply set_eq. intros x. rewrite !elem_of_union. tauto.
Qed.

(** X7: repeating a call of [load_data] with the same data on the same
    day changes nothing more: same outcome, same files, same directories,
    whether the data can be stored or not. *)
Theorem load_data_idempotent (env : Env) (data : json) (st : State) :
  now env (trace (load_data env data st).1) = now env (trace st) ->
  let st1 := (load_data env data st).1 in
  (load_data env data st1).2 = (load_data env data st).2
  /\ files (load_data env data st1).1 = files st1
  /\ dirs (load_data env data st1).1 = dirs st1.
Proof.
  intros Hday. cbv zeta.
  destruct (page_file_same_day env st (load_data env data st).1 "" Hday)
    as [_ Hfolder].
  assert (forall id, page_file env (load_data env data st).1 id
                     = page_file env st id) as Hfile
    by (intros id; by apply page_file_same_day).
  rewrite (load_data_eq env data (load_data env data st).1). cbv zeta.
  rewrite Hfolder.
  destruct (page_target data) as [e|[results last_id]] eqn:Htarget;
    rewrite ?Hfile, (load_data_eq env data st); cbv zeta; rewrite Htarget.
  2: destruct (open_error (page_file env st last_id)) as [e|].
  all: cbn [fst snd dirs files]; rewrite ?insert_insert_eq;
    (split; [done|]); (split; [done|]); apply union_twice.
Qed.

Lemma load_data_idempotent_witness :
  let st1 := (load_data Sample.env Sample.page7 Sample.fresh).1 in
  (load_data Sample.env Sample.page7 st1).2
  = (load_data Sample.env Sample.page7 Sample.fresh).2
  /\ files (load_data Sample.env Sample.page7 st1).1 = files st1
  /\ dirs (load_data Sample.env Sample.page7 st1).1 = dirs st1.
Proof.
  exact (load_data_idempotent Sample.env Sample.page7 Sample.fresh eq_refl).
Defined.



Lemma count_slash_app (s t : string) :
  count_slash (s ++ t) = (count_slash s + count_slash t)%nat.
Proof.
  induction s as [|c s IH]; [done|].
  rewrite append_cons. cbn [count_slash]. rewrite IH. lia.
Qed.

Lemma split_slash_segments (s : string) :
  Forall (fun x => count_slash x = 0%nat) (Py.split_slash s).
Proof.
  induction s as [|c s IH]; [by repeat constructor|].
  cbn [Py.split_slash]. destruct (Ascii.eqb c "/") eqn:Hc.
  - by constructor.
  - destruct (Py.split_slash s) as [|h t].
    { constructor; [|done]. cbn [count_slash]. by rewrite Hc. }
    inversion IH as [|?? Hh Ht]; subst. constructor; [|done].
    cbn [count_slash]. by rewrite Hc.
Qed.

Lemma is_page_id_plain (data : json) (items : list json) (last_id : string) :
  is_page data items last_id -> count_slash last_id = 0%nat.
Proof.
  intros [fields items' item_fields url id _ _ _ _ Hid].
  pose proof (split_slash_segments url) as Hseg.
  rewrite Forall_forall in Hseg. apply Hseg.
  by eapply list_elem_of_lookup_2.
Qed.



(** X10: whatever the [url] says, the file [load_data] writes is an entry
    of the dated directory itself: its name holds no ["/"], and the
    directory exists when it is written. *)
Theorem load_data_writes_in_folder (env : Env) (data : json) (st : State)
    (path content : string) :
  WriteFile path content ∈ new_events st (load_data env data st).1 ->
  dated_folder env st ∈ dirs (load_data env data st).1
  /\ exists name, path = dated_folder env st ++ "/" ++ name
                  /\ count_slash name = 0%nat.
Proof.
  rewrite load_data_eq. cbv zeta.
  destruct (page_target data) as [e|[results last_id]] eqn:Htarget.
  2: destruct (open_error (page_file env st last_id)) as [e|].
  all: cbn [fst]; (erewrite new_events_app by reflexivity); cbn [dirs].
  - intros Hin. apply list_elem_of_singleton in Hin. done.
  - intros Hin. apply list_elem_of_singleton in Hin. done.
  - intros Hin. split; [apply elem_of_union_r; by apply elem_of_singleton|].
    apply elem_of_cons in Hin as [|Hin]; [done|].
    apply list_elem_of_singleton in Hin. injection Hin as -> _.
    exists (last_id ++ ".json"). split; [by rewrite file_path_eq|].
    destruct (page_target_is_page _ _ _ Htarget) as (items & _ & Hpage).
    by rewrite count_slash_app, (is_page_id_plain _ _ _ Hpage).
Qed.

Lemma load_data_writes_in_folder_witness :
  "/srv/poke/data/2026-11-03"
    ∈ dirs (load_data Sample.env Sample.page7 Sample.fresh).1
  /\ exists name, "/srv/poke/data/2026-11-03/7.json"
                  = dated_folder Sample.env Sample.fresh ++ "/" ++ name
                  /\ count_slash name = 0%nat.
Proof.
  apply (load_data_writes_in_folder Sample.env Sample.page7 Sample.fresh
           "/srv/poke/data/2026-11-03/7.json"
           (Json.dumps
              (JList [JDict [("name", JStr "ivysaur");
                             ("url", JStr "https://api.test/items/7/")]]))).
  apply elem_of_cons. right. apply elem_of_cons. by left.
Defined.




(** An identifier of 251 characters, one more than a directory takes with
    the suffix; an integer of 5000 digits, more than the interpreter
    renders. *)
Example load_data_long_and_wide :
  (option_map Exn.cls
     (match (load_data Sample.env Sample.page_long Sample.fresh).2 with
      | inl e => Some e
      | inr _ => None
      end) = Some Exn.OSError
   /\ files (load_data Sample.env Sample.page_long Sample.fresh).1 = ∅)
  /\ ((load_data Sample.env Sample.page_wide Sample.fresh).2
        = inl (Py.int_error 4300)
      /\ files (load_data Sample.env Sample.page_wide Sample.fresh).1
           !! "/srv/poke/data/2026-11-03/7.json"
         = Some ("[{" ++ Json.quote ++ "id" ++ Json.quote ++ ": ")).
Proof. repeat apply conj; vm_compute; reflexivity. Qed.

(** X12: a [results] that is true and is not a list stops [load_data]
    at the subscript or just after it: a non-empty mapping raises
    [KeyError] (no key [-1]), a non-empty string [AttributeError] (its last
    character has no [get]), a number or [true] a [TypeError]; nothing is
    written. *)
Theorem load_data_results_not_list (env : Env) (fields : list (string * json))
    (results : json) (st : State) :
  Py.assoc "results" fields = Some results ->
  Py.truthy results = true ->
  (forall items, results <> JList items) ->
  exists e,
    (load_data env (JDict fields) st).2 = inl e
    /\ Exn.cls e = match results with
                   | JDict _ => Exn.KeyError
                   | JStr _ => Exn.AttributeError
                   | _ => Exn.TypeError
                   end
    /\ writes_file st (load_data env (JDict fields) st).1 = false.
Proof.
  intros Hres Htruthy Hlist. rewrite load_data_eq. cbv zeta.
  assert (exists e, page_target (JDict fields) = inl e
                    /\ Exn.cls e = match results with
                                   | JDict _ => Exn.KeyError
                                   | JStr _ => Exn.AttributeError
                                   | _ => Exn.TypeError
                                   end) as (e & -> & Hcls).
  { unfold page_target. cbn [Py.get]. rewrite Hres, Htruthy. cbn [negb].
    destruct results as [| | | |s|items|d];
      try (eexists; split; reflexivity).
    - cbn [Py.index_last]. destruct (Py.last_char s) as [c|] eqn:Hlast;
        [eexists; split; reflexivity|].
      destruct s as [|c s]; [done|].
      exfalso. clear -Hlast. revert c Hlast.
      induction s as [|c' s IH]; intros c; [done|]. apply IH.
    - by destruct (Hlist items). }
  exists e. cbn [fst snd]. unfold writes_file.
  by erewrite new_events_app by reflexivity.
Qed.

(** A body whose [results] is an object. *)
Lemma load_data_results_not_list_witness :
  exists e,
    (load_data Sample.env
       (JDict [("results", JDict [("count", JInt 3)])]) Sample.fresh).2 = inl e
    /\ Exn.cls e = Exn.KeyError
    /\ writes_file Sample.fresh
         (load_data Sample.env
            (JDict [("results", JDict [("count", JInt 3)])]) Sample.fresh).1
       = false.
Proof.
  apply (load_data_results_not_list Sample.env
           [("results", JDict [("count", JInt 3)])]
           (JDict [("count", JInt 3)]) Sample.fresh);
    [reflexivity | reflexivity | discriminate].
Defined.

(** ** The driver loop, continued *)

Lemma load_data_trace (env : Env) (data : json) (st st' : State)
    (r : result unit) :
  load_data env data st = (st', r) ->
  dirs st ⊆ dirs st' /\ dom (files st) ⊆ dom (files st')
  /\ ((exists e, r = inl e
         /\ trace st' = (trace st ++ [Mkdir (dated_folder env st)])%list)
      \/ (exists p c,
            trace st' = (trace st ++ [Mkdir (dated_folder env st);
                                      WriteFile p c])%list
            /\ (r = inr tt \/ exists e, r = inl e))).
Proof.
  rewrite load_data_eq. cbv zeta.
  assert (forall A B : gset string, dirs st ⊆ dirs st ∪ A ∪ B) as Hsub
    by (intros A B x Hx; by apply elem_of_union_l, elem_of_union_l).
  destruct (page_target data) as [e|[results last_id]].
  2: destruct (open_error (page_file env st last_id)) as [e|].
  all: intros [= <- <-]; cbn [dirs files trace].
  - split; [done|]. split; [done|]. left. eauto.
  - split; [done|]. split; [done|]. left. eauto.
  - split; [done|]. split; [rewrite dom_insert; apply union_subseteq_r|].
    right. eexists _, _. split; [done|].
    destruct (Json.iterencode _ _ _).2; eauto.
Qed.

(** One pass, event by event. *)
Lemma main_body_shape (env : Env) (url : json) (st st' : State) (f : flow) :
  main_body env url st = (st', inr f) ->
  dirs st ⊆ dirs st' /\ dom (files st) ⊆ dom (files st')
  /\ exists evs, trace st' = (trace st ++ evs)%list
                 /\ pass_shape env url evs f.
Proof.
  destruct (get_data_cases env url st)
    as [(e & Hnull & Hurl & Hget)|(u & Hreq & Hget)].
  - rewrite (main_body_fails _ _ _ _ _ _ (fetch_fails _ _ _ _ _ Hget)).
    intros [= <- <-]. split; [done|]. split; [done|].
    exists [error_logged e]. split; [done|]. by apply pass_unresolved.
  - set (r0 := match http env (trace st) u with
               | inl e => inl e
               | inr r => _
               end) in Hget.
    destruct r0 as [e|data].
    + rewrite (main_body_fails _ _ _ _ _ _ (fetch_fails _ _ _ _ _ Hget)).
      intros [= <- <-]. split; [done|]. split; [done|].
      exists [HttpGet u; error_logged e]. cbn [emit trace].
      split; [by rewrite <- app_assoc|]. by apply pass_fetch_error.
    + destruct (load_data env data (emit (HttpGet u) st)) as [st2 r] eqn:Hload.
      destruct (load_data_trace _ _ _ _ _ Hload)
        as (Hdirs & Hfiles & [(e & -> & Htr)|(p & c & Htr & [->|[e ->]])]).
      * rewrite (main_body_fails _ _ _ _ _ _
                   (persist_fails _ _ _ _ _ _ _ Hget Hload)).
        intros [= <- <-]. split; [done|]. split; [done|].
        exists [HttpGet u; Mkdir (dated_folder env (emit (HttpGet u) st));
                error_logged e].
        cbn [emit trace] in *. rewrite Htr.
        split; [by rewrite <- !app_assoc|]. by apply pass_persist_error.
      * destruct (main_body_persisted _ _ _ _ _ _ Hget Hload)
          as (next_url & _ & ->).
        destruct (Py.truthy next_url) eqn:Htruthy; intros [= <- <-];
          (split; [done|]); (split; [done|]); cbn [emit trace] in *;
          rewrite Htr; eexists; (split; [by rewrite <- !app_assoc|]).
        -- by apply pass_continue.
        -- by apply pass_done.
      * rewrite (main_body_fails _ _ _ _ _ _
                   (persist_fails _ _ _ _ _ _ _ Hget Hload)).
        intros [= <- <-]. split; [done|]. split; [done|].
        exists [HttpGet u; Mkdir (dated_folder env (emit (HttpGet u) st));
                WriteFile p c; error_logged e].
        cbn [emit trace] in *. rewrite Htr.
        split; [by rewrite <- !app_assoc|]. by apply pass_dump_error.
Qed.

Lemma main_run_shape (env : Env) (url : json) (st final : State)
    (r : result unit) :
  main_run env url st (final, r) ->
  r = inr tt
  /\ dirs st ⊆ dirs final /\ dom (files st) ⊆ dom (files final)
  /\ exists evs, trace final = (trace st ++ evs)%list
                 /\ run_shape env url evs.
Proof.
  intros Hrun. remember (final, r) as out eqn:Hout. revert final r Hout.
  induction Hrun as [url st st1 Hbody| url st st1 e Hbody
                    |url st st1 url1 out Hbody Hrun IH];
    intros final r Hout.
  - injection Hout as <- <-.
    destruct (main_body_shape _ _ _ _ _ Hbody) as (? & ? & evs & Htr & Hpass).
    repeat split; try done. exists evs. split; [done|].
    by apply run_shape_last.
  - by destruct (main_body_no_raise _ _ _ _ _ Hbody).
  - destruct (main_body_shape _ _ _ _ _ Hbody)
      as (Hd & Hf & evs & Htr & Hpass).
    destruct (IH final r Hout) as (-> & Hd' & Hf' & rest & Htr' & Hrest).
    split; [done|]. split; [by etrans|]. split; [by etrans|].
    exists (evs ++ rest)%list. split; [by rewrite Htr', Htr, app_assoc|].
    by eapply run_shape_more.
Qed.

(** X13: [main] lets no exception out: whenever the loop ends, it ends by
    returning, the exceptions of fetching and persisting having been
    logged. *)
Theorem main_never_raises (env : Env) (fuel : nat) (st : State) :
  match main env fuel st with
  | Some (_, inl _) => False
  | _ => True
  end.
Proof.
  destruct (main env fuel st) as [[st' [e|]]|] eqn:Hmain; [|done..].
  apply main_loop_run, main_run_shape in Hmain. by destruct Hmain.
Qed.



Lemma count_app (f : event -> bool) (evs rest : list event) :
  count f (evs ++ rest) = (count f evs + count f rest)%nat.
Proof. unfold count. by rewrite List.filter_app, length_app. Qed.

Lemma run_shape_counts (env : Env) (url : json) (evs : list event) :
  run_shape env url evs ->
  (count is_write evs <= count is_http_get evs <= count is_write evs + 1)%nat
  /\ (count is_error_log evs <= 1)%nat
  /\ ((last evs = Some completion_logged
       /\ count is_http_get evs = count is_write evs
       /\ count is_error_log evs = 0%nat)
      \/ (exists e, last evs = Some (error_logged e)
                    /\ count is_error_log evs = 1%nat)).
Proof.
  induction 1 as [url evs Hpass|url evs v rest Hpass _ IH].
  - inversion Hpass; subst; cbn; (split; [lia|]); (split; [lia|]);
      first [left; by repeat split | right; by eexists].
  - assert (rest <> []) as Hrest.
    { destruct IH as (_ & _ & [[Hl _]|(e & Hl & _)]); by intros ->. }
    assert (last (evs ++ rest) = last rest) as Hlast.
    { destruct rest as [|ev rest] using rev_ind; [done|].
      by rewrite app_assoc, !last_snoc. }
    rewrite !count_app, Hlast.
    inversion Hpass; subst; cbn. destruct IH as (Hreq & Herr & Hend).
    split; [lia|]. split; [lia|].
    destruct Hend as [(? & ? & ?)|(e & ? & ?)];
      [left; repeat split; (done || lia)|right; exists e; by split].
Qed.

(** X15: in a run that ends, the files written and the requests sent
    keep step: as many requests as files, or one more; at most one error is
    logged, and it is the last event; a run ends on the completion message
    only with as many files as requests and no error logged. *)
Theorem main_counts (env : Env) (fuel : nat) (st final : State)
    (r : result unit) :
  main env fuel st = Some (final, r) ->
  let evs := new_events st final in
  (count is_write evs <= count is_http_get evs <= count is_write evs + 1)%nat
  /\ (count is_error_log evs <= 1)%nat
  /\ ((last evs = Some completion_logged
       /\ count is_http_get evs = count is_write evs
       /\ count is_error_log evs = 0%nat)
      \/ (exists e, last evs = Some (error_logged e)
                    /\ count is_error_log evs = 1%nat)).
Proof.
  intros Hmain. apply main_loop_run, main_run_shape in Hmain.
  destruct Hmain as (_ & _ & _ & evs & Htr & Hshape).
  cbv zeta. rewrite (new_events_app _ _ _ Htr).
  by eapply run_shape_counts.
Qed.

(** The run that a status 500 stops on its second page: two requests,
    one file, one error, logged last. *)
Lemma main_counts_witness :
  let final :=
    emit (error_logged (http_error 500))
      (emit (HttpGet (JStr "https://api.test/flaky/?page=2"))
         (main_body Sample.env_flaky JNull Sample.fresh).1) in
  let evs := new_events Sample.fresh final in
  count is_http_get evs = 2%nat /\ count is_write evs = 1%nat
  /\ ((count is_write evs <= count is_http_get evs <= count is_write evs + 1)%nat
      /\ (count is_error_log evs <= 1)%nat
      /\ ((last evs = Some completion_logged
           /\ count is_http_get evs = count is_write evs
           /\ count is_error_log evs = 0%nat)
          \/ (exists e, last evs = Some (error_logged e)
                        /\ count is_error_log evs = 1%nat))).
Proof.
  split; [reflexivity|]. split; [reflexivity|].
  exact (main_counts Sample.env_flaky 2 Sample.fresh _ (inr tt) eq_refl).
Defined.





(** X17: when the first-page URL cannot be had from the configuration,
    [main] does one thing: log that error.  No request is sent, no
    directory made, no file written. *)
Theorem main_without_configuration (env : Env) (e : exn) (fuel : nat)
    (st : State) :
  get_api_url env 50 = inl e ->
  main env (S fuel) st = Some (emit (error_logged e) st, inr tt).
Proof.
  intros Hurl. unfold main. cbn [main_loop].
  assert (get_data env JNull st = (st, inl e)) as Hget.
  { destruct (get_data_cases env JNull st)
      as [(e' & _ & He' & ->)|(u & Hreq & _)]; [congruence|].
    inversion Hreq; congruence. }
  by rewrite (main_body_fails _ _ _ _ _ _ (fetch_fails _ _ _ _ _ Hget)).
Qed.

(** No configuration file at all. *)
Lemma main_without_configuration_witness :
  main (Sample.env_with ConfigAbsent) 7 Sample.fresh
  = Some ({| dirs := ∅; files := ∅;
             trace := [error_logged
                         (Exn.Raise Exn.FileNotFoundError
                            ["Configuration file 'config/api.conf' not found."])] |},
          inr tt).
Proof.
  exact (main_without_configuration (Sample.env_with ConfigAbsent)
           (Exn.Raise Exn.FileNotFoundError
              ["Configuration file 'config/api.conf' not found."])
           6 Sample.fresh eq_refl).
Defined.

(** X18: a run removes nothing: the directories and the files that were
    there when [main] started are there when it ends. *)
Theorem main_keeps_files (env : Env) (fuel : nat) (st final : State)
    (r : result unit) :
  main env fuel st = Some (final, r) ->
  dirs st ⊆ dirs final /\ dom (files st) ⊆ dom (files final).
Proof.
  intros Hmain. apply main_loop_run, main_run_shape in Hmain.
  by destruct Hmain as (_ & ? & ? & _).
Qed.

(** A start with a directory and a file of its own. *)
Lemma main_keeps_files_witness :
  dirs Sample.used
    ⊆ dirs (main_body Sample.env (JStr "https://api.test/items/?page=2")
              (main_body Sample.env JNull Sample.used).1).1
  /\ dom (files Sample.used)
       ⊆ dom (files (main_body Sample.env
                       (JStr "https://api.test/items/?page=2")
                       (main_body Sample.env JNull Sample.used).1).1).
Proof.
  exact (main_keeps_files Sample.env 2 Sample.used _ (inr tt) eq_refl).
Defined.

(** ** Logging and the script *)

Lemma log_records_app (tr tr' : list event) :
  log_records (tr ++ tr') = (log_records tr ++ log_records tr')%list.
Proof.
  induction tr as [|ev tr IH]; [done|].
  destruct ev; cbn [log_records app]; by rewrite ?IH.
Qed.

Lemma log_records_levels (tr : list event) :
  Forall (fun r => Logging.levelno r = Logging.INFO
                   \/ Logging.levelno r = Logging.ERROR) (log_records tr).
Proof.
  induction tr as [|ev tr IH]; [constructor|].
  destruct ev; cbn [log_records]; try done; constructor; auto.
Qed.

(** Once the root logger has a handler, logging leaves it as it is. *)
Lemma deliver_configured (l : Logging.logger) (tr : list event) :
  Logging.handlers l <> [] ->
  Logging.deliver l tr =
    (l, flat_map (fun r => if Logging.level l <=? Logging.levelno r
                           then Logging.callHandlers l r else [])
          (log_records tr)).
Proof.
  intros Hhs.
  assert (forall lvl msg,
            Logging.log lvl msg l =
              (l, if Logging.level l <=? lvl
                  then Logging.callHandlers l (Logging.LogRecord lvl msg)
                  else [])) as Hlog.
  { intros lvl msg. unfold Logging.log. by destruct (Logging.handlers l). }
  induction tr as [|ev tr IH]; [done|].
  cbn [Logging.deliver]. destruct ev; rewrite ?Hlog, IH; done.
Qed.

Lemma setup_logging_times_logger (env : Env) (n : nat) (st : State) :
  (setup_logging_times env (S n) st Logging.root).2
  = Logging.Logger Logging.INFO
      (concat (replicate (S n)
                 [Logging.Handler Logging.Stderr Logging.INFO log_format;
                  Logging.Handler
                    (Logging.File (path_div (cwd env) "logs/app.log"))
                    Logging.INFO log_format])).
Proof.
  induction n as [|n IH]; [done|].
  unfold setup_logging_times in *. rewrite Nat.iter_succ.
  unfold setup_logging at 1. cbn [snd]. rewrite IH. cbn [Logging.handlers].
  f_equal. replace (S (S n)) with (S n + 1)%nat by lia.
  by rewrite replicate_add, concat_app.
Qed.

(** X19: after [setup_logging] has been called [k >= 1] times in a fresh
    interpreter, every info and error record is put out [k] times on the
    console and [k] times in [logs/app.log], in the order logged: once each
    after one call, and every further call repeats every line. *)
Theorem setup_logging_lines (env : Env) (n : nat) (st : State)
    (tr : list event) :
  (Logging.deliver (setup_logging_times env (S n) st Logging.root).2 tr).2
  = flat_map (fun r => concat (replicate (S n)
                                 [console_line r; file_line env r]))
      (log_records tr).
Proof.
  rewrite setup_logging_times_logger, deliver_configured by done.
  cbn [snd]. pose proof (log_records_levels tr) as Hlevels.
  induction Hlevels as [|r rs Hr _ IH]; [done|].
  cbn [flat_map]. rewrite IH. f_equal.
  cbn [Logging.level].
  assert ((Logging.INFO <=? Logging.levelno r) = true) as Hok
    by (destruct Hr as [-> | ->]; done).
  rewrite Hok. unfold Logging.callHandlers. cbn [Logging.handlers].
  cbn [replicate concat app].
  assert (Logging.accepts r
            (Logging.Handler Logging.Stderr Logging.INFO log_format) = true)
    as Hc by done.
  assert (Logging.accepts r
            (Logging.Handler
               (Logging.File (path_div (cwd env) "logs/app.log"))
               Logging.INFO log_format) = true) as Hf by done.
  cbn [List.filter List.map]. rewrite Hc, Hf. cbn [List.map]. f_equal. f_equal.
  clear IH. induction n as [|n IHn]; [done|].
  cbn [replicate concat app List.filter List.map].
  rewrite Hc, Hf. cbn [List.map]. by rewrite IHn.
Qed.

(** X20: without [setup_logging], the messages of [main] go through an
    unconfigured root logger: the info messages (next page, completion) are
    put out nowhere, and each error message makes one line on the console,
    in the basic format. *)
Theorem main_logs_unconfigured (tr : list event) :
  (Logging.deliver Logging.root tr).2
  = flat_map (fun ev => match ev with
                        | LogError msg =>
                            [Logging.Line Logging.Stderr Logging.BASIC_FORMAT
                               (Logging.LogRecord Logging.ERROR msg)]
                        | _ => []
                        end) tr.
Proof.
  assert (forall tr',
            (Logging.deliver (Logging.basicConfig Logging.root) tr').2
            = flat_map (fun ev => match ev with
                        | LogError msg =>
                            [Logging.Line Logging.Stderr Logging.BASIC_FORMAT
                               (Logging.LogRecord Logging.ERROR msg)]
                        | _ => []
                        end) tr') as Hbasic.
  { intros tr'. rewrite deliver_configured by done. cbn [snd].
    induction tr' as [|ev tr' IH]; [done|].
    destruct ev; cbn [log_records flat_map]; by rewrite IH. }
  induction tr as [|ev tr IH]; [done|].
  cbn [Logging.deliver flat_map].
  destruct ev;
    try (destruct (Logging.deliver Logging.root tr) as [l2 out2];
         cbn [snd] in *; by rewrite IH).
  all: unfold Logging.log; cbn [Logging.handlers Logging.root];
    specialize (Hbasic tr);
    destruct (Logging.deliver (Logging.basicConfig Logging.root) tr)
      as [l2 out2]; cbn [snd] in *; by rewrite Hbasic.
Qed.

Lemma run_shape_nonempty (env : Env) (url : json) (evs : list event) :
  run_shape env url evs -> evs <> [].
Proof.
  induction 1 as [url evs Hpass|url evs v rest Hpass _ _];
    inversion Hpass; by subst.
Qed.

Lemma deliver_setup_once (env : Env) (st : State) (tr : list event) :
  (Logging.deliver (setup_logging env st Logging.root).2 tr).2
  = flat_map (fun r => [console_line r; file_line env r]) (log_records tr).
Proof.
  rewrite deliver_configured by done. cbn [snd].
  pose proof (log_records_levels tr) as Hlevels.
  induction Hlevels as [|r rs Hr _ IH]; [done|].
  cbn [flat_map]. rewrite IH. f_equal.
  unfold setup_logging, Logging.callHandlers, Logging.accepts.
  cbn [snd Logging.level Logging.handlers Logging.root app List.filter
       Logging.h_level].
  assert ((Logging.INFO <=? Logging.levelno r) = true) as ->
    by (destruct Hr as [-> | ->]; done).
  done.
Qed.

(** X21: the script closes every run that ends with the message "The
    project has finished with success", on the console and in the log file:
    also a run that the loop ended on an error, whose error message is then
    the line just before. *)
Theorem script_ends_with_success (env : Env) (fuel : nat) (st st3 : State)
    (r : result unit) (lines : list Logging.line) :
  script env fuel st Logging.root = Some (st3, r, lines) ->
  let done_record :=
    Logging.LogRecord Logging.INFO
      [Text "The project has finished with success"] in
  r = inr tt
  /\ exists st2,
       main env fuel (setup_logging env st Logging.root).1 = Some (st2, inr tt)
       /\ st3 = emit success_logged st2
       /\ (exists before,
             lines = (before ++ [console_line done_record;
                                 file_line env done_record])%list)
       /\ (forall e,
             last (trace st2) = Some (error_logged e) ->
             let error_record :=
               Logging.LogRecord Logging.ERROR
                 [Text "Error occurred while processing data: "; StrOfExn e] in
             exists before,
               lines = (before ++ [console_line error_record;
                                   file_line env error_record;
                                   console_line done_record;
                                   file_line env done_record])%list).
Proof.
  unfold script.
  destruct (setup_logging env st Logging.root) as [st1 l1] eqn:Hsetup.
  assert (l1 = (setup_logging env st Logging.root).2) as Hl1
    by (by rewrite Hsetup).
  cbn [fst].
  destruct (main env fuel st1) as [[st2 res]|] eqn:Hmain; [|done].
  pose proof Hmain as Hrun. apply main_loop_run, main_run_shape in Hrun.
  destruct Hrun as (-> & _ & _ & evs & Htr & Hshape).
  intros [= <- <- <-]. cbv zeta. split; [done|].
  exists st2. split; [done|]. split; [done|].
  assert (drop (length (trace st1)) (trace st2 ++ [success_logged])
          = (evs ++ [success_logged])%list) as ->.
  { rewrite Htr, <- app_assoc. apply drop_app_length. }
  rewrite Hl1, deliver_setup_once, log_records_app, flat_map_app.
  split; [by eexists|].
  intros e Hlast. rewrite Htr in Hlast.
  destruct evs as [|ev evs _] using rev_ind.
  { by destruct (run_shape_nonempty _ _ _ Hshape). }
  rewrite app_assoc, last_snoc in Hlast. injection Hlast as ->.
  rewrite log_records_app, flat_map_app, <- app_assoc. by eexists.
Qed.

(** The listing whose second page fails: the error, then the success
    message, each on the console and in the file. *)
Lemma script_ends_with_success_witness :
  let st2 :=
    emit (error_logged (http_error 500))
      (emit (HttpGet (JStr "https://api.test/flaky/?page=2"))
         (main_body Sample.env_flaky JNull
            (setup_logging Sample.env_flaky Sample.fresh Logging.root).1).1) in
  let lines :=
    (Logging.deliver
       (setup_logging Sample.env_flaky Sample.fresh Logging.root).2
       (trace (emit success_logged st2))).2 in
  let done_record :=
    Logging.LogRecord Logging.INFO
      [Text "The project has finished with success"] in
  let error_record :=
    Logging.LogRecord Logging.ERROR
      [Text "Error occurred while processing data: ";
       StrOfExn (http_error 500)] in
  exists before,
    lines = (before ++ [console_line error_record;
                        file_line Sample.env_flaky error_record;
                        console_line done_record;
                        file_line Sample.env_flaky done_record])%list.
Proof.
  cbv zeta.
  destruct (script_ends_with_success Sample.env_flaky 2 Sample.fresh _
              (inr tt) _ eq_refl) as (_ & st2 & Hmain & _ & _ & Herror).
  injection Hmain as <-.
  exact (Herror (http_error 500) eq_refl).
Defined.

(** ** The text written *)

(** Induction on a JSON value, its items and fields included. *)
Lemma all_printable_app (s t : string) :
  all_printable (s ++ t) = all_printable s && all_printable t.
Proof.
  induction s as [|c s IH]; [done|].
  rewrite append_cons. cbn [all_printable]. by rewrite IH, andb_assoc.
Qed.

Lemma escape_char_printable (c : ascii) :
  all_printable (Json.escape_char c) = true.
Proof. by destruct c as [[] [] [] [] [] [] [] []]. Qed.

Lemma escape_printable (s : string) : all_printable (Json.escape s) = true.
Proof.
  induction s as [|c s IH]; [done|]. cbn [Json.escape].
  by rewrite all_printable_app, escape_char_printable, IH.
Qed.

Lemma encode_str_printable (s : string) :
  all_printable (Json.encode_str s) = true.
Proof.
  unfold Json.encode_str. by rewrite !all_printable_app, escape_printable.
Qed.

Lemma pretty_N_go_printable (x : N) (s : string) :
  all_printable s = true -> all_printable (pretty_N_go x s) = true.
Proof.
  revert s. induction (N.lt_wf_0 x) as [x _ IH]; intros s Hs.
  destruct (decide (x = 0)%N) as [->|Hx]; [by rewrite pretty_N_go_0|].
  rewrite pretty_N_go_step by lia. apply IH.
  - apply N.div_lt; lia.
  - cbn [all_printable]. rewrite Hs, andb_true_r.
    unfold pretty_N_char. by repeat case_match.
Qed.

Lemma str_int_printable (n : Z) : all_printable (Py.str_int n) = true.
Proof.
  unfold Py.str_int, pretty, pretty_Z.
  destruct n as [|x|x]; [done|..];
    unfold pretty, pretty_positive, pretty, pretty_N;
    rewrite ?all_printable_app; (case_decide; [done|]);
    by rewrite pretty_N_go_printable.
Qed.

Lemma join_printable (chunks : list string) :
  Forall (fun c => all_printable c = true) chunks ->
  all_printable (Json.join chunks) = true.
Proof.
  induction 1 as [|c chunks Hc _ IH]; [done|].
  cbn [Json.join]. destruct chunks as [|c' chunks]; [done|].
  by rewrite !all_printable_app, Hc, IH.
Qed.

Lemma dumps_printable (v : json) :
  float_texts_printable v = true -> all_printable (Json.dumps v) = true.
Proof.
  induction v as [|b|n|r|s|l IH|d IH] using json_nested_ind;
    cbn [Json.dumps float_texts_printable]; intros Hv.
  - done.
  - by destruct b.
  - apply str_int_printable.
  - unfold Json.encode_float. by repeat case_match.
  - apply encode_str_printable.
  - rewrite !all_printable_app, join_printable; [done|].
    apply Forall_map. rewrite forallb_forall in Hv.
    rewrite Forall_forall in IH |- *. intros x Hx.
    apply IH; [done|]. by apply Hv, list_elem_of_In.
  - rewrite !all_printable_app, join_printable; [done|].
    apply Forall_map. rewrite forallb_forall in Hv.
    rewrite Forall_forall in IH |- *. intros [k x] Hx. cbn [fst snd].
    rewrite !all_printable_app, encode_str_printable. cbn.
    apply (IH _ Hx). by apply (Hv (k, x)), list_elem_of_In.
Qed.

Lemma assoc_printable (k : string) (d : list (string * json)) (v : json) :
  Py.assoc k d = Some v ->
  float_texts_printable (JDict d) = true ->
  float_texts_printable v = true.
Proof.
  cbn [float_texts_printable].
  induction d as [|[k' x] d IH]; [done|]. cbn [Py.assoc forallb snd].
  intros Hk [Hx Hd]%andb_prop.
  destruct (String.eqb k k'); [by injection Hk as <-|by apply IH].
Qed.

(** X22: what [load_data] writes is printable ASCII, all on one line:
    quotes, backslashes, control characters and the characters beyond ASCII
    of any string or key are escaped. *)
Theorem load_data_writes_ascii (env : Env) (data : json) (st : State)
    (path content : string) :
  float_texts_printable data = true ->
  WriteFile path content ∈ new_events st (load_data env data st).1 ->
  all_printable content = true.
Proof.
  intros Hfloats. rewrite load_data_eq. cbv zeta.
  destruct (page_target data) as [e|[results last_id]] eqn:Htarget.
  2: destruct (open_error (page_file env st last_id)) as [e|].
  all: cbn [fst]; (erewrite new_events_app by reflexivity).
  - intros Hin. apply list_elem_of_singleton in Hin. done.
  - intros Hin. apply list_elem_of_singleton in Hin. done.
  - intros Hin. apply elem_of_cons in Hin as [|Hin]; [done|].
    apply list_elem_of_singleton in Hin. injection Hin as _ ->.
    assert (all_printable (Json.dumps results) = true) as Hall.
    { apply dumps_printable.
      destruct (page_target_is_page _ _ _ Htarget) as (items & -> & Hpage).
      destruct Hpage as [fields items' ? ? ? Hres _ _ _ _].
      by eapply assoc_printable. }
    destruct (iterencode_prefix (int_max_str_digits env) results
                (recursion_room env)) as (rest & Hfull & _).
    rewrite Hfull, all_printable_app in Hall.
    by apply andb_prop in Hall as [? _].
Qed.

(** A name with an e-acute and a line feed in it. *)
Lemma load_data_writes_ascii_witness :
  all_printable
    (Json.dumps
       (JList [JDict [("name", JStr (String "233"%char
                                       (String "010"%char "vee")));
                      ("url", JStr "https://api.test/items/133/")]])) = true.
Proof.
  apply (load_data_writes_ascii Sample.env Sample.page_accents Sample.fresh
           "/srv/poke/data/2026-11-03/133.json"); [reflexivity|].
  apply elem_of_cons. right. apply elem_of_cons. by left.
Defined.

(** The text for that name, escapes and all. *)
Example dumps_accents :
  Json.dumps (JStr (String "233"%char (String "010"%char "vee")))
  = Json.quote ++ "\u00e9\nvee" ++ Json.quote.
Proof. reflexivity. Qed.

(** ** Dates and file names *)












